(** * Fintech sentiment dashboard: the filter-and-aggregate pipeline of [app.py]

    A shallow embedding of the Streamlit script [src/app.py].  The review
    table is a pandas [DataFrame]; it is modelled row-wise, each row carrying
    its index label and the five columns the script reads.  A missing CSV
    field (pandas [NaN]) is [None].  The pandas operations the script calls
    (boolean-mask indexing, [unique], [dropna], [value_counts], [groupby],
    [size], [unstack], [fillna]) are modelled by what they compute on such
    rows. *)

From Stdlib Require Import ZArith String Ascii List DecimalString.
From Stdlib Require Import Sorting.Sorted.
From Stdlib Require QArith.QArith_base.
From stdpp Require Import base option list strings.

Local Open Scope string_scope.

(** ** Data model *)

(** One row of a frame.  [T] is the cell type of the [at] column: the text
    read from the CSV before line 73 of the script, a timestamp after it.
    [sentiment_score] is a float in the source; every finite float is a
    rational and the script never computes on it. *)
Record Row (T : Type) : Type := mkRow {
  index : nat;
  app_name : option string;
  reviewCreatedVersion : option string;
  sentiment_label : option string;
  sentiment_score : option QArith_base.Q;
  at_ : T
}.

Arguments mkRow {T} _ _ _ _ _ _.
Arguments index {T} _.
Arguments app_name {T} _.
Arguments reviewCreatedVersion {T} _.
Arguments sentiment_label {T} _.
Arguments sentiment_score {T} _.
Arguments at_ {T} _.

(** Elementwise [==] of a column cell against a scalar, as pandas computes
    it: a missing cell compares unequal to everything, and so does a
    missing scalar ([NaN] or [None]). *)
Definition eq_cell (c v : option string) : bool :=
  match c, v with
  | Some a, Some b => String.eqb a b
  | _, _ => false
  end.

(** [Series.dropna()]. *)
Definition dropna {A} (col : list (option A)) : list A := omap id col.

(** [Series.unique()]: the distinct values in order of first appearance;
    all missing cells count as one value. *)
Fixpoint unique `{EqDecision A} (l : list A) : list A :=
  match l with
  | [] => []
  | x :: l' => x :: filter (λ y, y ≠ x) (unique l')
  end.

(** Python's [sorted] on strings (insertion into an ascending list; the sort
    is stable). *)
Fixpoint insort (s : string) (l : list string) : list string :=
  match l with
  | [] => [s]
  | t :: l' => if String.ltb s t then s :: l else t :: insort s l'
  end.

Definition sorted (l : list string) : list string := foldr insort [] l.

(** ** Sidebar filters (lines 28-37) *)

Section Filters.
Context {T : Type}.
Implicit Types df : list (Row T).

(** Line 28: [df['app_name'].unique().tolist()]. *)
Definition app_names df : list (option string) := unique (app_name <$> df).

(** Line 31: [df[df['app_name'] == selected_app]]. *)
Definition by_app df (selected_app : option string) : list (Row T) :=
  filter (λ r, eq_cell (app_name r) selected_app) df.

(** Line 34: the versions offered for the selected app. *)
Definition versions (filtered_df : list (Row T)) : list string :=
  sorted (unique (dropna (reviewCreatedVersion <$> filtered_df))).

(** Line 37: [filtered_df[filtered_df['reviewCreatedVersion'] == selected_version]]. *)
Definition version_mask (filtered_df : list (Row T))
    (selected_version : option string) : list (Row T) :=
  filter (λ r, eq_cell (reviewCreatedVersion r) selected_version) filtered_df.

(** Lines 36-37: the version filter; the sentinel is the string "All". *)
Definition by_version (filtered_df : list (Row T))
    (selected_version : option string) : list (Row T) :=
  if decide (selected_version ≠ Some "All")
  then version_mask filtered_df selected_version
  else filtered_df.

(** Lines 31-37 together: the frame bound to [filtered_df] once both
    selectors have been read. *)
Definition filtered_df df (selected_app selected_version : option string)
    : list (Row T) :=
  by_version (by_app df selected_app) selected_version.
End Filters.

(** ** Ordered keys

    [groupby] sorts its group keys; Python compares strings by code point
    and dates by ordinal.  [Ord] is that comparison protocol. *)
Class Ord (K : Type) := {
  cmp : K → K → comparison;
  cmp_eq x y : cmp x y = Eq → x = y;
  cmp_antisym x y : cmp y x = CompOpp (cmp x y);
  cmp_trans x y z : cmp x y = Lt → cmp y z = Lt → cmp x z = Lt
}.

Definition lt_key `{Ord K} (x y : K) : Prop := cmp x y = Lt.

Lemma Z_cmp_eq (x y : Z) : (x ?= y)%Z = Eq → x = y.
Proof. apply Z.compare_eq. Qed.

Lemma Z_cmp_trans (x y z : Z) :
  (x ?= y)%Z = Lt → (y ?= z)%Z = Lt → (x ?= z)%Z = Lt.
Proof. rewrite !Z.compare_lt_iff. lia. Qed.

#[export] Instance Z_ord : Ord Z :=
  {| cmp := Z.compare; cmp_eq := Z_cmp_eq;
     cmp_antisym := Z.compare_antisym; cmp_trans := Z_cmp_trans |}.

Lemma string_cmp_antisym (s t : string) :
  String.compare t s = CompOpp (String.compare s t).
Proof. apply String.compare_antisym. Qed.

Lemma ascii_cmp_refl (a : ascii) : Ascii.compare a a = Eq.
Proof. unfold Ascii.compare. apply N.compare_refl. Qed.

Lemma string_cmp_trans (s t u : string) :
  String.compare s t = Lt → String.compare t u = Lt → String.compare s u = Lt.
Proof.
  revert t u. induction s as [|a s IH]; intros [|b t] [|c u]; simpl; try done.
  destruct (Ascii.compare a b) eqn:Hab; try done;
    destruct (Ascii.compare b c) eqn:Hbc; try done.
  - apply Ascii.compare_eq_iff in Hab, Hbc. subst.
    rewrite ascii_cmp_refl. apply IH.
  - apply Ascii.compare_eq_iff in Hab. subst. by rewrite Hbc.
  - apply Ascii.compare_eq_iff in Hbc. subst. by rewrite Hab.
  - unfold Ascii.compare in *. rewrite N.compare_lt_iff in Hab, Hbc.
    assert ((N_of_ascii a ?= N_of_ascii c)%N = Lt) as ->; [|done].
    apply N.compare_lt_iff. lia.
Qed.

#[export] Instance string_ord : Ord string :=
  {| cmp := String.compare; cmp_eq := String.compare_eq_iff;
     cmp_antisym := string_cmp_antisym; cmp_trans := string_cmp_trans |}.

(** Tuples compare lexicographically. *)
Definition cmp_pair `{Ord A, Ord B} (p q : A * B) : comparison :=
  match cmp p.1 q.1 with
  | Eq => cmp p.2 q.2
  | o => o
  end.

Lemma cmp_refl `{Ord K} (x : K) : cmp x x = Eq.
Proof. pose proof (cmp_antisym x x). by destruct (cmp x x). Qed.

Lemma cmp_pair_eq `{Ord A, Ord B} (p q : A * B) : cmp_pair p q = Eq → p = q.
Proof.
  destruct p as [a b], q as [c d]. unfold cmp_pair. simpl.
  destruct (cmp a c) eqn:Hac; try done.
  intros Hbd. apply cmp_eq in Hac, Hbd. by subst.
Qed.

Lemma cmp_pair_antisym `{Ord A, Ord B} (p q : A * B) :
  cmp_pair q p = CompOpp (cmp_pair p q).
Proof.
  destruct p as [a b], q as [c d]. unfold cmp_pair. simpl.
  rewrite (cmp_antisym a c). destruct (cmp a c); simpl; try done.
  apply cmp_antisym.
Qed.

Lemma cmp_pair_trans `{Ord A, Ord B} (p q r : A * B) :
  cmp_pair p q = Lt → cmp_pair q r = Lt → cmp_pair p r = Lt.
Proof.
  destruct p as [a b], q as [c d], r as [e f]. unfold cmp_pair. simpl.
  destruct (cmp a c) eqn:Hac; try done;
    destruct (cmp c e) eqn:Hce; try done; intros Hbd Hdf.
  - apply cmp_eq in Hac, Hce. subst. rewrite cmp_refl. eauto using cmp_trans.
  - apply cmp_eq in Hac. subst. by rewrite Hce.
  - apply cmp_eq in Hce. subst. by rewrite Hac.
  - by rewrite (cmp_trans a c e).
Qed.

#[export] Instance pair_ord `{Ord A, Ord B} : Ord (A * B) :=
  {| cmp := cmp_pair; cmp_eq := cmp_pair_eq;
     cmp_antisym := cmp_pair_antisym; cmp_trans := cmp_pair_trans |}.

(** ** Group counting *)

(** A counted series: the index values with their counts, as [size()] and
    [value_counts()] return them (an int64 count per key). *)
Abbreviation Series K := (list (K * Z)).

Section GroupBy.
Context `{Ord K}.

(** One more row in group [k] of a series kept ascending by key. *)
Fixpoint bump (k : K) (s : Series K) : Series K :=
  match s with
  | [] => [(k, 1%Z)]
  | (k', n) :: s' =>
      match cmp k k' with
      | Lt => (k, 1%Z) :: s
      | Eq => (k', (n + 1)%Z) :: s'
      | Gt => (k', n) :: bump k s'
      end
  end.

(** [groupby(keys).size()] with the defaults [sort=True], [dropna=True]:
    one entry per distinct key present, ascending by key, carrying the
    number of rows of the group; rows whose key is missing are left out. *)
Definition groupby_size (keys : list (option K)) : Series K :=
  foldr (λ k s, match k with Some k => bump k s | None => s end) [] keys.

(** Label lookup in a series. *)
Fixpoint series_get (k : K) (s : Series K) : option Z :=
  match s with
  | [] => None
  | (k', n) :: s' => if cmp k k' is Eq then Some n else series_get k s'
  end.
End GroupBy.

(** ** Chart data preparation (lines 70-73) and the chart aggregates *)

Section ValueCounts.
Context `{EqDecision K}.

(** The hash-table pass of [value_counts]: one entry per distinct value,
    in order of first appearance. *)
Fixpoint tally (k : K) (s : Series K) : Series K :=
  match s with
  | [] => [(k, 1%Z)]
  | (k', n) :: s' =>
      if decide (k = k') then (k', (n + 1)%Z) :: s' else (k', n) :: tally k s'
  end.

(** Descending sort by count.  pandas leaves the order of equal counts
    to the sort routine; here they keep their relative order. *)
Fixpoint insert_desc (e : K * Z) (s : Series K) : Series K :=
  match s with
  | [] => [e]
  | e' :: s' => if (e'.2 <=? e.2)%Z then e :: s else e' :: insert_desc e s'
  end.

(** [Series.value_counts()] with the defaults [sort=True],
    [ascending=False], [dropna=True]. *)
Definition value_counts (col : list (option K)) : Series K :=
  foldr insert_desc [] (foldl (λ s k, tally k s) [] (dropna col)).
End ValueCounts.

Section Aggregates.
Context {T : Type}.

(** Line 70. *)
Definition sentiment_counts (filtered_df : list (Row T)) : Series string :=
  value_counts (sentiment_label <$> filtered_df).

(** Lines 71-72: [reset_index()] turns the series into a two-column frame
    [sentiment_label], [count], row order kept. *)
Definition sentiment_df (filtered_df : list (Row T)) : list (string * Z) :=
  sentiment_counts filtered_df.

End Aggregates.

(** The sum of the [count] column. *)
Definition total {K} (s : Series K) : Z := foldr Z.add 0%Z s.*2.

(** A nanosecond timestamp truncated to its calendar date ([.dt.date]); the
    date is the day number since the epoch, which is how dates order. *)
Definition nanos_per_day : Z := 86400000000000.

Definition dt_date (col : list (option Z)) : list (option Z) :=
  (λ c : option Z, (λ ns, ns `div` nanos_per_day)%Z <$> c) <$> col.

(** Lines 118-119 (and 178-179):
    [filtered_df.groupby(filtered_df['at'].dt.date).size().reset_index(name='count')],
    a frame of ([date], [count]) rows.  The [at] column holds timestamps
    here, [NaT] being [None]. *)
Definition daily_counts (filtered_df : list (Row (option Z))) : list (Z * Z) :=
  groupby_size (dt_date (at_ <$> filtered_df)).

(** The frame behind the heatmap: [index] labels its rows, [columns] its
    columns, [values] holds the cells row by row. *)
Record Matrix (C : Type) : Type := mkMatrix {
  mat_index : list string;
  mat_columns : list string;
  mat_values : list (list C)
}.

Arguments mkMatrix {C} _ _ _.
Arguments mat_index {C} _.
Arguments mat_columns {C} _.
Arguments mat_values {C} _.

(** The distinct values of an index level, ascending. *)
Definition level (ks : list string) : list string :=
  (groupby_size (Some <$> ks)).*1.

(** [Series.unstack()] of a series keyed by (version, label): the last
    level becomes the columns; a pair absent from the series gives a missing
    cell. *)
Definition unstack (s : Series (string * string)) : Matrix (option Z) :=
  let idx := level (fst <$> s.*1) in
  let cols := level (snd <$> s.*1) in
  mkMatrix idx cols ((λ v, (λ l, series_get (v, l) s) <$> cols) <$> idx).

(** [DataFrame.fillna(0)]. *)
Definition fillna (d : Z) (m : Matrix (option Z)) : Matrix Z :=
  mkMatrix (mat_index m) (mat_columns m)
    ((λ row : list (option Z), default d <$> row) <$> mat_values m).

(** The two group keys of a row; the group is dropped when either is
    missing. *)
Definition version_label {T} (r : Row T) : option (string * string) :=
  v ← reviewCreatedVersion r; l ← sentiment_label r; Some (v, l).

(** Line 130 (and 189):
    [filtered_df.groupby(['reviewCreatedVersion', 'sentiment_label']).size().unstack().fillna(0)]. *)
Definition heatmap_df {T} (filtered_df : list (Row T)) : Matrix Z :=
  fillna 0 (unstack (groupby_size (version_label <$> filtered_df))).

(** The number of rows of a view in group ([v], [l]). *)
Definition pair_count {T} (view : list (Row T)) (v l : string) : Z :=
  Z.of_nat (length (filter
    (λ r, reviewCreatedVersion r = Some v ∧ sentiment_label r = Some l) view)).

(** Position of a label in an index. *)
Fixpoint get_loc (k : string) (idx : list string) : option nat :=
  match idx with
  | [] => None
  | k' :: idx' => if decide (k = k') then Some 0 else S <$> get_loc k idx'
  end.

(** [m.loc[v, l]]: the cell at row label [v] and column label [l]. *)
Definition cell {C} (m : Matrix C) (v l : string) : option C :=
  i ← get_loc v (mat_index m);
  j ← get_loc l (mat_columns m);
  row ← mat_values m !! i;
  row !! j.

(** ** Question answering (lines 59-65) *)

(** [str.lower()] on the ASCII letters; other bytes are left as they are.
    (The two needles below are ASCII, and no non-ASCII character lowers to
    a text that completes one of them.) *)
Definition lower_ascii (c : ascii) : ascii :=
  let n := N_of_ascii c in
  if (65 <=? n)%N && (n <=? 90)%N then ascii_of_N (n + 32) else c.

Fixpoint lower (s : string) : string :=
  match s with
  | EmptyString => EmptyString
  | String c s' => String (lower_ascii c) (lower s')
  end.

(** Python's [needle in hay] on strings. *)
Fixpoint contains (needle hay : string) : bool :=
  String.prefix needle hay
  || match hay with
     | EmptyString => false
     | String _ hay' => contains needle hay'
     end.

(** [str(n)] of a non-negative int. *)
Definition str (n : nat) : string := NilZero.string_of_uint (Nat.to_uint n).

Definition not_recognized : string :=
  "Question not recognized. Try a different query.".

Definition answer_heading : string := "🔍 Answer to your Question:".

(** Line 62: the number of rows of [df] for Google Pay labelled negative. *)
Definition count {T} (df : list (Row T)) : nat :=
  length (filter (λ r, eq_cell (app_name r) (Some "Google Pay")
                       && eq_cell (sentiment_label r) (Some "negative")) df).

(** Lines 59-65 as a function of the table and the question: the text
    written under the answer heading; [None] when the question box is empty
    and nothing is written. *)
Definition answer {T} (df : list (Row T)) (question : string) : option string :=
  if decide (question = "") then None
  else if contains "negative" (lower question)
          && contains "google pay" (lower question)
  then Some (" **Google Pay has " ++ str (count df) ++ " negative reviews**.")
  else Some not_recognized.

(** ** The script

    A run of [app.py] has an object store holding the frames, the position
    of a frame being its identity, and the elements sent to the page so
    far.  A Python variable bound to a frame holds its position. *)

Inductive Frame : Type :=
  | ObjectAt (rows : list (Row (option string)))
  | DatetimeAt (rows : list (Row (option Z))).

Inductive Figure : Type :=
  | px_pie (data_frame : list (string * Z)) (title : string)
  | px_bar (data_frame : list (string * Z)) (title : string)
  | px_box (data_frame : Frame) (title : string)
  | px_line (data_frame : list (Z * Z)) (title : string)
  | go_Heatmap (z : list (list Z)) (x y : list string) (title : string).

Inductive Event : Type :=
  | set_page_config (page_title layout : string)
  | title (body : string)
  | markdown (body : string)
  | error (body : string)
  | header (body : string)
  | subheader (body : string)
  | sidebar_header (body : string)
  | sidebar_markdown (body : string)
  | sidebar_selectbox (label : string) (options : list string)
  | sidebar_text_input (label : string)
  | plotly_chart (fig : Figure).

Record World : Type := mkWorld {
  heap : list Frame;
  page : list Event
}.

(** How a run ends: it reaches the end of the script, [st.stop()] halts it,
    or an exception does. *)
Inductive Outcome (A : Type) : Type :=
  | Done (a : A)
  | Stopped
  | Raised (exn : string).

Arguments Done {A} _.
Arguments Stopped {A}.
Arguments Raised {A} _.

Definition Script (A : Type) : Type := World → Outcome A * World.

Definition ret {A} (a : A) : Script A := λ w, (Done a, w).

Definition bind {A B} (m : Script A) (k : A → Script B) : Script B :=
  λ w, match m w with
       | (Done a, w') => k a w'
       | (Stopped, w') => (Stopped, w')
       | (Raised e, w') => (Raised e, w')
       end.

#[export] Instance script_ret : MRet Script := @ret.
#[export] Instance script_bind : MBind Script := λ A B k m, bind m k.

Definition emit (e : Event) : Script unit :=
  λ w, (Done (), mkWorld (heap w) (page w ++ [e])).

Definition st_stop {A} : Script A := λ w, (Stopped, w).

Definition raise {A} (exn : string) : Script A := λ w, (Raised exn, w).

(** A new frame object; its identity is returned. *)
Definition new_frame (f : Frame) : Script nat :=
  λ w, (Done (length (heap w)), mkWorld (heap w ++ [f]) (page w)).

Definition read_frame (l : nat) : Script Frame :=
  λ w, match heap w !! l with
       | Some f => (Done f, w)
       | None => (Raised "NameError", w)
       end.

(** In-place update of the frame object [l]. *)
Definition write_frame (l : nat) (f : Frame) : Script unit :=
  λ w, (Done (), mkWorld (<[l := f]> (heap w)) (page w)).

(** A function of the rows that does not look at the [at] column, applied
    to a frame. *)
Definition on_rows {R} (f : ∀ T, list (Row T) → R) (d : Frame) : R :=
  match d with
  | ObjectAt rows => f _ rows
  | DatetimeAt rows => f _ rows
  end.

(** Boolean-mask indexing [d[mask]]: the selected rows, as a frame of their
    own. *)
Definition getitem (sel : ∀ T, list (Row T) → list (Row T)) (d : Frame) : Frame :=
  match d with
  | ObjectAt rows => ObjectAt (sel _ rows)
  | DatetimeAt rows => DatetimeAt (sel _ rows)
  end.

(** [pd.read_csv]: the records of the file under a fresh 0..n-1 index. *)
Definition read_csv (records : list (Row (option string)))
    : list (Row (option string)) :=
  imap (λ i r, mkRow i (app_name r) (reviewCreatedVersion r)
                 (sentiment_label r) (sentiment_score r) (at_ r)) records.

(** What a run receives from outside: the records of the data file when it
    exists, the position the user picked in each select box, and the text
    of the question box. *)
Record Env : Type := mkEnv {
  file : option (list (Row (option string)));
  pick_app : nat;
  pick_version : nat;
  pick_chart : nat;
  question : string
}.

(** [st.sidebar.selectbox(label, options)]: the option picked; [None] when
    there is none to pick. *)
Definition selectbox {A} (fmt : A → string) (label : string)
    (options : list A) (pick : nat) : Script (option A) :=
  emit (sidebar_selectbox label (fmt <$> options));;
  ret (options !! pick).

(** [str] of a cell and of a selection, as an f-string prints them. *)
Definition str_cell (c : option string) : string := default "nan" c.

Definition str_selected (c : option (option string)) : string :=
  default "None" (str_cell <$> c).

Definition chart_options : list string :=
  ["Pie Chart"; "Bar Chart"; "Box Plot"; "Line Chart"; "Heatmap";
   "All Visualizations"].

Definition footer_html : string :=
  String "010" "    <div style=" ++ String "034" "text-align: center;"
  ++ String "034" ">" ++ String "010" "        Developed by <strong>Pragathi</strong> using <a href="
  ++ String "034" "https://streamlit.io/" ++ String "034" " target="
  ++ String "034" "_blank" ++ String "034" "><code>Streamlit</code></a> 🚀"
  ++ String "010" "    </div>" ++ String "010" "    ".

Section Run.
(** [strptime col s]: the timestamp, in nanoseconds, that [pd.to_datetime]
    reads in the text [s] of the column [col] (whose format it infers);
    [None] when it raises. *)
Variable strptime : list (option string) → string → option Z.

(** [pd.to_datetime] of an [at] column read from the CSV: a missing cell
    becomes [NaT]; one unreadable cell raises. *)
Definition to_datetime (col : list (option string)) : option (list (option Z)) :=
  mapM (λ c, match c with
             | None => Some None
             | Some s => Some <$> strptime col s
             end) col.

(** Line 73: [filtered_df['at'] = pd.to_datetime(filtered_df['at'])],
    on the frame object [filtered_df] is bound to. *)
Definition convert_at (filtered_df : nat) : Script unit :=
  d ← read_frame filtered_df;
  match d with
  | ObjectAt rows =>
      match to_datetime (at_ <$> rows) with
      | Some ts =>
          write_frame filtered_df
            (DatetimeAt (zip_with (λ r t, mkRow (index r) (app_name r)
               (reviewCreatedVersion r) (sentiment_label r)
               (sentiment_score r) t) rows ts))
      | None => raise "ValueError"
      end
  | DatetimeAt _ => ret ()
  end.

Definition pie_chart (sentiment_df : list (string * Z)) : Script unit :=
  emit (plotly_chart (px_pie sentiment_df "Sentiment Share")).

Definition bar_chart (sentiment_df : list (string * Z))
    (selected_app : option (option string)) : Script unit :=
  emit (plotly_chart (px_bar sentiment_df
          ("Sentiment Count for " ++ str_selected selected_app))).

Definition box_plot (filtered_df : nat) : Script unit :=
  d ← read_frame filtered_df;
  emit (plotly_chart (px_box d "Sentiment Score Distribution by Label")).

Definition line_chart (filtered_df : nat) : Script unit :=
  d ← read_frame filtered_df;
  match d with
  | DatetimeAt rows =>
      emit (plotly_chart (px_line (daily_counts rows) "Review Volume Over Time"))
  | ObjectAt _ => raise "AttributeError"
  end.

Definition heatmap (filtered_df : nat) : Script unit :=
  d ← read_frame filtered_df;
  let heatmap_df := on_rows (@heatmap_df) d in
  emit (plotly_chart (go_Heatmap (mat_values heatmap_df)
          (mat_columns heatmap_df) (mat_index heatmap_df)
          "Version-wise Sentiment Heatmap")).

(** Lines 81-201. *)
Definition render (chart_choice : option string)
    (sentiment_df : list (string * Z)) (filtered_df : nat)
    (selected_app : option (option string)) : Script unit :=
  if decide (chart_choice = Some "Pie Chart") then
    emit (subheader "Sentiment Distribution (Pie Chart)");;
    pie_chart sentiment_df
  else if decide (chart_choice = Some "Bar Chart") then
    emit (subheader "Bar Chart of Sentiment Counts");;
    bar_chart sentiment_df selected_app
  else if decide (chart_choice = Some "Box Plot") then
    emit (subheader "Box Plot of Sentiment Scores");;
    box_plot filtered_df
  else if decide (chart_choice = Some "Line Chart") then
    emit (subheader "Reviews Over Time");;
    line_chart filtered_df
  else if decide (chart_choice = Some "Heatmap") then
    emit (subheader "Heatmap of Versions and Sentiments");;
    heatmap filtered_df
  else if decide (chart_choice = Some "All Visualizations") then
    emit (subheader "1. Sentiment Distribution (Pie Chart)");;
    pie_chart sentiment_df;;
    emit (subheader "2. Bar Chart of Sentiment Counts");;
    bar_chart sentiment_df selected_app;;
    emit (subheader "3. Box Plot of Sentiment Scores");;
    box_plot filtered_df;;
    emit (subheader "4. Reviews Over Time");;
    line_chart filtered_df;;
    emit (subheader "5. Heatmap of Versions and Sentiments");;
    heatmap filtered_df
  else ret ().

(** Lines 10-24: the page set-up, the existence check on [data_path] and
    [load_data]; the result is the object bound to [df]. *)
Definition startup (env : Env) : Script nat :=
  emit (set_page_config "Fintech Sentiment Dashboard" "wide");;
  emit (title " Smart Fintech Sentiment Explorer");;
  emit (markdown "Gain insights from app store reviews for major fintech platforms.");;
  match file env with
  | None =>
      emit (error "Data file not found. Please run sentiment analysis script first.");;
      st_stop
  | Some records => new_frame (ObjectAt (read_csv records))
  end.

(** Lines 26-57: the sidebar.  Its result is what the rest of the script
    reads: the object [filtered_df] is bound to, [selected_app] and
    [chart_choice]. *)
Definition sidebar (env : Env) (df : nat)
    : Script (nat * option (option string) * option string) :=
  emit (sidebar_header "📁 Filters");;
  d ← read_frame df;
  let app_names := on_rows (@app_names) d in
  selected_app ← selectbox str_cell "Select an App" app_names (pick_app env);
  d ← read_frame df;
  filtered_df ← new_frame (getitem (λ T rows, by_app rows (mjoin selected_app)) d);
  d ← read_frame filtered_df;
  let versions := on_rows (@versions) d in
  selected_version ←
    selectbox id "Select App Version (optional)" ("All" :: versions)
      (pick_version env);
  filtered_df ←
    (if decide (selected_version ≠ Some "All") then
       d ← read_frame filtered_df;
       new_frame (getitem (λ T rows, version_mask rows selected_version) d)
     else ret filtered_df);
  emit (sidebar_markdown "---");;
  emit (sidebar_header " Visualization Selector");;
  chart_choice ←
    selectbox id "Choose a Chart to Display" chart_options (pick_chart env);
  emit (sidebar_markdown "---");;
  emit (sidebar_header " Ask a Question");;
  emit (sidebar_text_input "E.g., How many negative reviews for Google Pay?");;
  ret (filtered_df, selected_app, chart_choice).

(** Lines 59-65, as the script runs them. *)
Definition qna (env : Env) (df : nat) : Script unit :=
  if decide (question env ≠ "") then
    emit (subheader answer_heading);;
    if contains "negative" (lower (question env))
       && contains "google pay" (lower (question env))
    then
      d ← read_frame df;
      let count := on_rows (@count) d in
      emit (markdown (" **Google Pay has " ++ str count ++ " negative reviews**."))
    else emit (markdown not_recognized)
  else ret ().

(** Lines 70-214: chart data preparation, the chart and the footer. *)
Definition charts (filtered_df : nat) (selected_app : option (option string))
    (chart_choice : option string) : Script unit :=
  d ← read_frame filtered_df;
  let sentiment_df := on_rows (@sentiment_df) d in
  convert_at filtered_df;;
  emit (header (" Visualization for " ++ str_selected selected_app));;
  render chart_choice sentiment_df filtered_df selected_app;;
  emit (markdown "---");;
  emit (markdown footer_html).

(** Lines 26-214, run with [df] bound. *)
Definition dashboard (env : Env) (df : nat) : Script unit :=
  '(filtered_df, selected_app, chart_choice) ← sidebar env df;
  qna env df;;
  charts filtered_df selected_app chart_choice.

Definition main (env : Env) : Script unit :=
  df ← startup env;
  dashboard env df.

(** A run from an empty store and an empty page. *)
Definition run (env : Env) : Outcome unit * World := main env (mkWorld [] []).
End Run.

(** The answer a page shows: the text written right under the answer
    heading. *)
Fixpoint shown_answer (page : list Event) : option string :=
  match page with
  | [] => None
  | e :: page' =>
      match e, page' with
      | subheader h, markdown text :: _ =>
          if decide (h = answer_heading) then Some text else shown_answer page'
      | _, _ => shown_answer page'
      end
  end.

(** What the two select boxes of the sidebar return in a run over the
    table [df]. *)
Definition selected_app (env : Env) (df : list (Row (option string)))
    : option (option string) :=
  app_names df !! pick_app env.

Definition selected_version (env : Env) (df : list (Row (option string)))
    : option string :=
  ("All" :: versions (by_app df (mjoin (selected_app env df)))) !! pick_version env.

(** A script that leaves the frame object [l] as it is and writes no
    answer heading on the page. *)
Definition quiet {A} (l : nat) (m : Script A) : Prop :=
  ∀ w, heap (m w).2 !! l = heap w !! l
       ∧ ∃ evs, page (m w).2 = (page w ++ evs)%list
                ∧ Forall (λ e, e ≠ subheader answer_heading) evs.

(** The charts drawn on a page, in order. *)
Definition figures (page : list Event) : list Figure :=
  omap (λ e, match e with plotly_chart fig => Some fig | _ => None end) page.

(** The rows line 73 leaves in the frame: the [at] cells replaced by the
    timestamps read, every other column kept. *)
Definition with_timestamps (rows : list (Row (option string)))
    (ts : list (option Z)) : list (Row (option Z)) :=
  zip_with (λ r t, mkRow (index r) (app_name r) (reviewCreatedVersion r)
                     (sentiment_label r) (sentiment_score r) t) rows ts.

(** The view a run filters out of the table [df]. *)
Definition selected_view (env : Env) (df : list (Row (option string)))
    : list (Row (option string)) :=
  filtered_df df (mjoin (selected_app env df)) (selected_version env df).

(** The number of charts a choice of the chart select box asks for. *)
Definition charts_asked (pick : nat) : nat :=
  if decide (pick < 5) then 1 else if decide (pick = 5) then 5 else 0.

(** What a chart's data must satisfy to be one of the aggregates: counted
    labels distinct, positive and by descending count; daily volumes
    positive and by strictly ascending date; a heatmap with one row of
    non-negative cells per [y] label and one cell per [x] label. *)
Definition sound_figure (fig : Figure) : Prop :=
  match fig with
  | px_pie data _ | px_bar data _ =>
      StronglySorted (λ a b, (b.2 ≤ a.2)%Z) data
      ∧ NoDup data.*1 ∧ Forall (λ e, (1 ≤ e.2)%Z) data
  | px_box _ _ => True
  | px_line data _ =>
      StronglySorted Z.lt data.*1 ∧ Forall (λ e, (1 ≤ e.2)%Z) data
  | go_Heatmap z x y _ =>
      length z = length y
      ∧ Forall (λ row, length row = length x ∧ Forall (λ c, (0 ≤ c)%Z) row) z
  end.

(** A script that keeps a property of the charts on the page. *)
Definition paints {A} (P : Figure → Prop) (m : Script A) : Prop :=
  ∀ w, Forall P (figures (page w)) → Forall P (figures (page (m w).2)).

(** The timestamp cell [t] falls on day [d]. *)
Definition on_day (d : Z) (t : option Z) : Prop :=
  match t with
  | Some ns => (d * nanos_per_day ≤ ns < (d + 1) * nanos_per_day)%Z
  | None => False
  end.

#[export] Instance on_day_dec (d : Z) (t : option Z) : Decision (on_day d t).
Proof. destruct t; simpl; apply _. Defined.

(** ** Sample data *)

Definition sample_records : list (Row (option string)) :=
  [ mkRow 0 (Some "Google Pay") (Some "1.2") (Some "negative") None (Some "86400000000001");
    mkRow 0 (Some "PhonePe") None (Some "negative") None (Some "5");
    mkRow 0 (Some "Google Pay") (Some "1.0") (Some "positive") None (Some "7");
    mkRow 0 (Some "Google Pay") (Some "1.2") (Some "positive") None None ].

Definition sample_env (app version chart : nat) (question : string) : Env :=
  mkEnv (Some sample_records) app version chart question.

(** A table without Google Pay, and a question about the app it holds. *)
Definition phonepe_records : list (Row (option string)) :=
  [ mkRow 0 (Some "PhonePe") (Some "4.1") (Some "negative") None (Some "1700000000000000000") ].

Definition phonepe_question : string := "How many negative reviews for PhonePe?".

(** A table with a timestamp that is no count of nanoseconds. *)
Definition unreadable_records : list (Row (option string)) :=
  [ mkRow 0 (Some "Google Pay") (Some "1.2") (Some "negative") None (Some "7");
    mkRow 0 (Some "Google Pay") (Some "1.2") (Some "positive") None (Some "yesterday") ].

(** A reader of timestamps written as a count of nanoseconds. *)
Definition sample_strptime (col : list (option string)) (s : string) : option Z :=
  Z.of_uint <$> NilZero.uint_of_string s.

(** ** Facts about the column helpers *)

Lemma eq_cell_Some (c : option string) (a : string) :
  eq_cell c (Some a) ↔ c = Some a.
Proof.
  destruct c as [b|]; simpl.
  - rewrite Is_true_true, String.eqb_eq. split; [by intros ->|by intros [= ->]].
  - split; [intros []|done].
Qed.

Lemma eq_cell_None (c : option string) : ¬ eq_cell c None.
Proof. destruct c; intros []. Qed.

Lemma eq_cell_iff (c v : option string) : eq_cell c v ↔ c = v ∧ is_Some c.
Proof.
  destruct v as [a|].
  - rewrite eq_cell_Some. split; [intros ->; eauto | by intros [? _]].
  - split; [by intros ?%eq_cell_None | intros [-> [? ?]]; done].
Qed.

Lemma filter_none {A} (P : A → Prop) `{!∀ x, Decision (P x)} (l : list A) :
  (∀ x, x ∈ l → ¬ P x) → filter P l = [].
Proof.
  induction l as [|x l IH]; intros HP; [done|].
  rewrite filter_cons_False by (apply HP; by left).
  apply IH. intros y Hy. apply HP. by right.
Qed.

Lemma filter_all {A} (P : A → Prop) `{!∀ x, Decision (P x)} (l : list A) :
  (∀ x, x ∈ l → P x) → filter P l = l.
Proof.
  induction l as [|x l IH]; intros HP; [done|].
  rewrite filter_cons_True by (apply HP; by left).
  f_equal. apply IH. intros y Hy. apply HP. by right.
Qed.

Lemma filter_ext_elem {A} (P Q : A → Prop) `{!∀ x, Decision (P x)}
    `{!∀ x, Decision (Q x)} (l : list A) :
  (∀ x, x ∈ l → P x ↔ Q x) → filter P l = filter Q l.
Proof.
  induction l as [|x l IH]; intros HPQ; [done|].
  rewrite !filter_cons.
  destruct (decide (P x)) as [HP|HP], (decide (Q x)) as [HQ|HQ];
    try (rewrite IH; [done | intros; apply HPQ; by right]).
  - destruct HQ. apply HPQ; [by left | done].
  - destruct HP. apply HPQ; [by left | done].
Qed.

Section Unique.
Context `{EqDecision A}.
Implicit Types l : list A.

Lemma elem_of_unique l x : x ∈ unique l ↔ x ∈ l.
Proof.
  induction l as [|y l IH]; simpl; [done|].
  rewrite !elem_of_cons, list_elem_of_filter, IH.
  destruct (decide (x = y)); tauto.
Qed.

Lemma NoDup_unique l : NoDup (unique l).
Proof.
  induction l as [|y l IH]; simpl; [constructor|].
  constructor; [|by apply NoDup_filter].
  rewrite list_elem_of_filter. by intros [? _].
Qed.
End Unique.

(** Splitting a list by the value of a key: the classes of distinct keys,
    concatenated, rearrange the list, provided every element's key is
    listed. *)
Section Classes.
Context {A K : Type} `{EqDecision K} (f : A → K).

Lemma classes_skip (ks : list K) (x : A) (l : list A) :
  f x ∉ ks →
  concat ((λ k, filter (λ y, f y = k) (x :: l)) <$> ks)
  = concat ((λ k, filter (λ y, f y = k) l) <$> ks).
Proof.
  induction ks as [|k ks IH]; intros Hx; [done|].
  apply not_elem_of_cons in Hx as [Hne Hx]. csimpl.
  rewrite filter_cons_False by done. by rewrite IH.
Qed.

Lemma classes_cons (ks : list K) (x : A) (l : list A) :
  NoDup ks → f x ∈ ks →
  concat ((λ k, filter (λ y, f y = k) (x :: l)) <$> ks)
  ≡ₚ x :: concat ((λ k, filter (λ y, f y = k) l) <$> ks).
Proof.
  induction ks as [|k ks IH]; intros Hnd Hx; [by apply elem_of_nil in Hx|].
  apply NoDup_cons in Hnd as [Hk Hnd]. csimpl.
  destruct (decide (f x = k)) as [Heq|Hne].
  - rewrite filter_cons_True by done.
    rewrite classes_skip by (by rewrite Heq). done.
  - rewrite filter_cons_False by done.
    apply elem_of_cons in Hx as [?|Hx]; [done|].
    rewrite IH by done. by rewrite Permutation_middle.
Qed.

Lemma classes_partition (ks : list K) (l : list A) :
  NoDup ks → (∀ x, x ∈ l → f x ∈ ks) →
  concat ((λ k, filter (λ y, f y = k) l) <$> ks) ≡ₚ l.
Proof.
  intros Hnd. induction l as [|x l IH]; intros Hin.
  - clear. induction ks as [|k ks IHk]; [done|]. csimpl. by rewrite IHk.
  - rewrite classes_cons; [|done|apply Hin; by left].
    f_equiv. apply IH. intros y Hy. apply Hin. by right.
Qed.
End Classes.

(** ** Facts about group counting *)

Section GroupByFacts.
Context `{Ord K}.
Implicit Types (k : K) (s : Series K).

Lemma cmp_Gt_Lt k k' : cmp k k' = Gt → cmp k' k = Lt.
Proof. intros Hgt. by rewrite (cmp_antisym k k'), Hgt. Qed.

Lemma elem_of_bump k k' s : k' ∈ (bump k s).*1 ↔ k' = k ∨ k' ∈ s.*1.
Proof.
  induction s as [|[k0 n] s IH]; simpl.
  - rewrite list_elem_of_singleton, elem_of_nil. tauto.
  - destruct (cmp k k0) eqn:Hc; csimpl; rewrite ?elem_of_cons, ?IH.
    + apply cmp_eq in Hc as ->. tauto.
    + simpl. tauto.
    + tauto.
Qed.

Lemma bump_sorted k s :
  StronglySorted lt_key s.*1 → StronglySorted lt_key (bump k s).*1.
Proof.
  induction s as [|[k0 n] s IH]; simpl; intros Hs.
  - repeat constructor.
  - apply StronglySorted_inv in Hs as [Hs Hall].
    destruct (cmp k k0) eqn:Hc; csimpl.
    + by constructor.
    + constructor; [by constructor|]. constructor; [done|].
      eapply Forall_impl; [exact Hall|]. intros k1. by apply cmp_trans.
    + constructor; [by apply IH|]. apply Forall_forall. intros k1 Hk1.
      apply elem_of_bump in Hk1 as [->|Hk1]; [by apply cmp_Gt_Lt|].
      by eapply Forall_forall in Hall.
Qed.

Lemma groupby_size_sorted (keys : list (option K)) :
  StronglySorted lt_key (groupby_size keys).*1.
Proof.
  induction keys as [|[k|] keys IH]; simpl; [constructor| |done].
  by apply bump_sorted.
Qed.

Lemma elem_of_groupby_size (keys : list (option K)) k :
  k ∈ (groupby_size keys).*1 ↔ Some k ∈ keys.
Proof.
  induction keys as [|[k0|] keys IH]; simpl.
  - by rewrite !elem_of_nil.
  - rewrite elem_of_bump, elem_of_cons, IH.
    split; (intros [?|?]; [left; congruence | by right]).
  - rewrite elem_of_cons, IH. split; [by right | by intros [?|?]].
Qed.

Lemma series_get_above k s : Forall (lt_key k) s.*1 → series_get k s = None.
Proof.
  induction s as [|[k0 n] s IH]; simpl; [done|].
  intros [Hk Hall]%Forall_cons. unfold lt_key in Hk. rewrite Hk. by apply IH.
Qed.

Lemma series_get_bump `{EqDecision K} k k' s :
  StronglySorted lt_key s.*1 →
  series_get k (bump k' s)
  = if decide (k = k') then Some (default 0 (series_get k s) + 1)%Z
    else series_get k s.
Proof.
  induction s as [|[k0 n] s IH]; simpl; intros Hs.
  - destruct (decide (k = k')) as [->|Hne]; [by rewrite cmp_refl|].
    by destruct (cmp k k') eqn:Hc; [apply cmp_eq in Hc|..].
  - apply StronglySorted_inv in Hs as [Hs Hall].
    destruct (cmp k' k0) eqn:Hc; simpl.
    + apply cmp_eq in Hc as ->.
      destruct (decide (k = k0)) as [->|Hne]; [by rewrite cmp_refl|].
      by destruct (cmp k k0) eqn:Hc; [apply cmp_eq in Hc|..].
    + destruct (decide (k = k')) as [->|Hne].
      * rewrite cmp_refl, Hc. rewrite series_get_above; [done|].
        eapply Forall_impl; [exact Hall|]. intros k1. by apply cmp_trans.
      * by destruct (cmp k k') eqn:Hkk; [apply cmp_eq in Hkk|..].
    + destruct (cmp k k0) eqn:Hk0; [|by apply IH..].
      apply cmp_eq in Hk0 as ->.
      rewrite decide_False; [done|]. intros <-. by rewrite cmp_refl in Hc.
Qed.

(** What [groupby(...).size()] holds for a key: nothing when no row has
    it, the number of its rows otherwise. *)
Lemma series_get_groupby_size `{EqDecision K} (keys : list (option K)) k :
  series_get k (groupby_size keys)
  = if decide (Some k ∈ keys)
    then Some (Z.of_nat (length (filter (λ x, x = Some k) keys)))
    else None.
Proof.
  induction keys as [|[k0|] keys IH]; cbn [groupby_size foldr];
    try fold (groupby_size keys).
  - by rewrite decide_False by apply not_elem_of_nil.
  - rewrite series_get_bump by apply groupby_size_sorted. rewrite IH.
    destruct (decide (k = k0)) as [->|Hne].
    + rewrite (decide_True (P := Some k0 ∈ Some k0 :: keys)) by by left.
      rewrite filter_cons_True by done.
      destruct (decide (Some k0 ∈ keys)) as [Hin|Hin]; simpl; f_equal; [lia|].
      rewrite filter_none; [done|]. by intros x Hx ->.
    + rewrite filter_cons_False by congruence.
      destruct (decide (Some k ∈ keys)) as [Hin|Hin].
      * by rewrite decide_True by by right.
      * rewrite decide_False; [done|].
        intros [?|?]%elem_of_cons; [congruence|done].
  - rewrite IH, filter_cons_False by done.
    destruct (decide (Some k ∈ keys)) as [Hin|Hin].
    + by rewrite decide_True by by right.
    + rewrite decide_False; [done|]. by intros [?|?]%elem_of_cons.
Qed.

End GroupByFacts.

(** ** Facts about [value_counts] *)

Section ValueCountsFacts.
Context `{EqDecision K}.
Implicit Types (k : K) (s : Series K).

Lemma total_tally k s : total (tally k s) = (total s + 1)%Z.
Proof.
  unfold total. induction s as [|[k0 n] s IH]; simpl; [done|].
  destruct (decide (k = k0)); csimpl; [lia|]. rewrite IH. lia.
Qed.

Lemma total_insert_desc (e : K * Z) s :
  total (insert_desc e s) = (e.2 + total s)%Z.
Proof.
  unfold total. induction s as [|e0 s IH]; simpl; [done|].
  destruct (e0.2 <=? e.2)%Z; csimpl; [done|]. rewrite IH. lia.
Qed.

Lemma total_foldl_tally (ks : list K) s :
  total (foldl (λ s k, tally k s) s ks) = (total s + Z.of_nat (length ks))%Z.
Proof.
  revert s. induction ks as [|k ks IH]; intros s; simpl; [lia|].
  rewrite IH, total_tally. lia.
Qed.

Lemma total_value_counts (col : list (option K)) :
  total (value_counts col) = Z.of_nat (length (dropna col)).
Proof.
  unfold value_counts.
  generalize (foldl (λ s k, tally k s) [] (dropna col)) (total_foldl_tally (dropna col) []).
  intros s Hs. rewrite <-(Z.add_0_l (Z.of_nat _)). change 0%Z with (total (@nil (K * Z))).
  rewrite <-Hs. clear Hs.
  induction s as [|e s IH]; [done|]. simpl.
  rewrite total_insert_desc, IH. done.
Qed.
End ValueCountsFacts.

Lemma dropna_length_all {A} (col : list (option A)) :
  Forall is_Some col → length (dropna col) = length col.
Proof.
  unfold dropna. induction 1 as [|c col [a ->] _ IH]; [done|].
  csimpl. by rewrite IH.
Qed.

(** ** Facts about the heatmap matrix *)

Lemma get_loc_elem (v : string) (idx : list string) :
  v ∈ idx → ∃ i, get_loc v idx = Some i ∧ idx !! i = Some v.
Proof.
  induction idx as [|k idx IH]; [by intros ?%elem_of_nil|].
  intros Hin. simpl. destruct (decide (v = k)) as [->|Hne]; [by exists 0|].
  apply elem_of_cons in Hin as [?|Hin]; [done|].
  destruct (IH Hin) as (i & -> & Hi). by exists (S i).
Qed.

Lemma cell_tabulate {C} (f : string → string → C) (idx cols : list string)
    (v l : string) :
  v ∈ idx → l ∈ cols →
  cell (mkMatrix idx cols ((λ v, (λ l, f v l) <$> cols) <$> idx)) v l
  = Some (f v l).
Proof.
  intros (i & Hi & Hv)%get_loc_elem (j & Hj & Hl)%get_loc_elem.
  unfold cell. simpl. rewrite Hi, Hj. simpl.
  rewrite list_lookup_fmap, Hv. simpl.
  by rewrite list_lookup_fmap, Hl.
Qed.

Lemma elem_of_level (ks : list string) (k : string) : k ∈ level ks ↔ k ∈ ks.
Proof.
  unfold level. rewrite elem_of_groupby_size, list_elem_of_fmap.
  split; [intros (k' & [= ->] & ?); done | eauto].
Qed.

Section HeatmapFacts.
Context {T : Type}.
Implicit Types view : list (Row T).

Lemma version_label_Some (r : Row T) (v l : string) :
  version_label r = Some (v, l)
  ↔ reviewCreatedVersion r = Some v ∧ sentiment_label r = Some l.
Proof.
  unfold version_label.
  destruct (reviewCreatedVersion r), (sentiment_label r); simpl;
    split; try done; try (by intros [? ?]).
  - by intros [= -> ->].
  - by intros [[= ->] [= ->]].
Qed.

Lemma filter_version_label view (v l : string) :
  length (filter (λ x, x = Some (v, l)) (version_label <$> view))
  = length (filter
      (λ r, reviewCreatedVersion r = Some v ∧ sentiment_label r = Some l) view).
Proof.
  induction view as [|r view IH]; [done|]. csimpl.
  destruct (decide (version_label r = Some (v, l))) as [Hr|Hr].
  - rewrite !filter_cons_True; [|by apply version_label_Some|done].
    simpl. by rewrite IH.
  - rewrite !filter_cons_False; [done| |done].
    by rewrite <-version_label_Some.
Qed.

Lemma size_get view (v l : string) :
  default 0%Z (series_get (v, l) (groupby_size (version_label <$> view)))
  = pair_count view v l.
Proof.
  rewrite series_get_groupby_size. unfold pair_count.
  rewrite <-filter_version_label. case_decide as Hin; [done|]. simpl.
  rewrite filter_none; [done|]. by intros x Hx ->.
Qed.

Lemma heatmap_df_tabulate view :
  heatmap_df view
  = mkMatrix (mat_index (heatmap_df view)) (mat_columns (heatmap_df view))
      ((λ v, (λ l, pair_count view v l) <$> mat_columns (heatmap_df view))
         <$> mat_index (heatmap_df view)).
Proof.
  unfold heatmap_df, fillna, unstack. simpl. f_equal.
  rewrite <-list_fmap_compose. apply list_fmap_ext. intros _ v _. simpl.
  rewrite <-list_fmap_compose. apply list_fmap_ext. intros _ l _. simpl.
  apply size_get.
Qed.

Lemma observed_in_axes view (r : Row T) (v l : string) :
  r ∈ view → reviewCreatedVersion r = Some v → sentiment_label r = Some l →
  v ∈ mat_index (heatmap_df view) ∧ l ∈ mat_columns (heatmap_df view).
Proof.
  intros Hr Hv Hl. unfold heatmap_df, fillna, unstack. simpl.
  assert ((v, l) ∈ (groupby_size (version_label <$> view)).*1) as Hk.
  { apply elem_of_groupby_size, list_elem_of_fmap. exists r.
    split; [|done]. symmetry. by apply version_label_Some. }
  rewrite !elem_of_level. split.
  - apply list_elem_of_fmap. by exists (v, l).
  - apply list_elem_of_fmap. by exists (v, l).
Qed.
End HeatmapFacts.

(** ** The filters *)

Section FilterFacts.
Context {T : Type}.
Implicit Types df : list (Row T).

Lemma by_version_All (view : list (Row T)) :
  by_version view (Some "All") = view.
Proof. unfold by_version. rewrite decide_False; [done|]. by intros []. Qed.

Lemma by_app_Some df (A : string) :
  by_app df (Some A) = filter (λ r, app_name r = Some A) df.
Proof.
  unfold by_app. apply filter_ext_elem. intros r _. apply eq_cell_Some.
Qed.

Lemma by_app_key df (sel : option string) :
  by_app df sel
  = filter (λ r, app_name r = sel) (filter (λ r, is_Some (app_name r)) df).
Proof.
  unfold by_app. rewrite list_filter_filter.
  apply filter_ext_elem. intros r _. apply eq_cell_iff.
Qed.

Lemma app_names_NoDup df : NoDup (app_names df).
Proof. apply NoDup_unique. Qed.

Lemma elem_of_app_names df (c : option string) :
  c ∈ app_names df ↔ ∃ r, r ∈ df ∧ app_name r = c.
Proof.
  unfold app_names. rewrite elem_of_unique, list_elem_of_fmap.
  split; intros (r & ? & ?); eauto.
Qed.
End FilterFacts.

(** C1.  For every app name [A] of the table, the view for [A] with version
    "All" is exactly the rows whose [app_name] is [A], in table order; the
    app names offered are distinct and the views of two distinct selections
    share no row; and, every row of a review table having its [app_name]
    (the data model's invariant), the views of the distinct app names
    together rearrange the whole table. *)
Theorem filter_by_app_partitions {T} (df : list (Row T)) :
  (∀ A, Some A ∈ app_names df →
     filtered_df df (Some A) (Some "All") = filter (λ r, app_name r = Some A) df)
  ∧ NoDup (app_names df)
  ∧ (∀ A B r, A ≠ B →
       r ∈ filtered_df df A (Some "All") → r ∉ filtered_df df B (Some "All"))
  ∧ ((∀ r, r ∈ df → is_Some (app_name r)) →
     concat ((λ A, filtered_df df A (Some "All")) <$> app_names df) ≡ₚ df).
Proof.
  unfold filtered_df. split_and!.
  - intros A _. by rewrite by_version_All, by_app_Some.
  - apply app_names_NoDup.
  - intros A B r HAB. rewrite !by_version_All. unfold by_app.
    rewrite !list_elem_of_filter. intros [HA _] [HB _].
    destruct (app_name r) as [a|], A as [A|], B as [B|]; simpl in *; try done.
    apply Is_true_true, String.eqb_eq in HA, HB. congruence.
  - intros Hwf. erewrite list_fmap_ext;
      [|intros ? A _; rewrite by_version_All; apply by_app_key].
    rewrite classes_partition.
    + by rewrite filter_all.
    + apply app_names_NoDup.
    + intros r Hr. apply elem_of_app_names. exists r. split; [|done].
      by apply list_elem_of_filter in Hr as [_ Hr].
Qed.

(** C2.  With "All" selected for the version the view is the app-filtered
    view itself; with any other value [v] it is exactly the rows of the
    app-filtered view whose [reviewCreatedVersion] is [v], in order. *)
Theorem version_selection {T} (df : list (Row T)) (selected_app : option string) :
  filtered_df df selected_app (Some "All") = by_app df selected_app
  ∧ ∀ v : string, v ≠ "All" →
      filtered_df df selected_app (Some v)
      = filter (λ r, reviewCreatedVersion r = Some v) (by_app df selected_app).
Proof.
  unfold filtered_df. split; [apply by_version_All|].
  intros v Hv. unfold by_version, version_mask. rewrite decide_True by congruence.
  apply filter_ext_elem. intros r _. apply eq_cell_Some.
Qed.

Lemma StronglySorted_Zlt_NoDup (l : list Z) : StronglySorted Z.lt l → NoDup l.
Proof.
  induction 1 as [|x l _ IH Hall]; constructor; [|done].
  intros Hx. eapply Forall_forall in Hall; [|done]. lia.
Qed.

(** C6.  The daily-volume frame is strictly ascending in its [date] column,
    hence lists no date twice. *)
Theorem daily_counts_strictly_ascending (view : list (Row (option Z))) :
  StronglySorted Z.lt (daily_counts view).*1 ∧ NoDup (daily_counts view).*1.
Proof.
  assert (StronglySorted Z.lt (daily_counts view).*1) as Hs.
  { exact (groupby_size_sorted (dt_date (at_ <$> view))). }
  split; [done | by apply StronglySorted_Zlt_NoDup].
Qed.

(** C7.  Whatever app and version are selected, the counts of
    [sentiment_df] add up to the number of rows of the filtered view, every
    row of the view having its [sentiment_label] (the data model's
    invariant; [value_counts] leaves a row without label out). *)
Theorem sentiment_counts_total {T} (df : list (Row T))
    (selected_app selected_version : option string) :
  (∀ r, r ∈ filtered_df df selected_app selected_version →
     is_Some (sentiment_label r)) →
  total (sentiment_df (filtered_df df selected_app selected_version))
  = Z.of_nat (length (filtered_df df selected_app selected_version)).
Proof.
  intros Hwf. unfold sentiment_df, sentiment_counts.
  rewrite total_value_counts, dropna_length_all, length_fmap; [done|].
  apply Forall_fmap, Forall_forall. intros r Hr. by apply Hwf.
Qed.

(** C5.  In the version-by-sentiment matrix of a view no cell is negative,
    the cell of a (version, label) combination that no row of the view has
    is 0, and the cell of a pair some row has is the number of such rows,
    which is at least 1. *)
Theorem heatmap_df_cells {T} (view : list (Row T)) :
  Forall (Forall (λ c, 0 ≤ c)%Z) (mat_values (heatmap_df view))
  ∧ (∀ v l, v ∈ mat_index (heatmap_df view) → l ∈ mat_columns (heatmap_df view) →
       (∀ r, r ∈ view →
          ¬ (reviewCreatedVersion r = Some v ∧ sentiment_label r = Some l)) →
       cell (heatmap_df view) v l = Some 0%Z)
  ∧ (∀ r v l, r ∈ view →
       reviewCreatedVersion r = Some v → sentiment_label r = Some l →
       cell (heatmap_df view) v l = Some (pair_count view v l)
       ∧ (1 ≤ pair_count view v l)%Z).
Proof.
  split_and!.
  - rewrite heatmap_df_tabulate. simpl.
    apply Forall_fmap, Forall_forall. intros v _. simpl.
    apply Forall_fmap, Forall_forall. intros l _. simpl.
    unfold pair_count. lia.
  - intros v l Hv Hl Hnone. rewrite heatmap_df_tabulate.
    rewrite cell_tabulate by done. f_equal. unfold pair_count.
    by rewrite filter_none.
  - intros r v l Hr Hrv Hrl.
    destruct (observed_in_axes view r v l) as [Hv Hl]; [done..|].
    split; [rewrite heatmap_df_tabulate; by rewrite cell_tabulate|].
    unfold pair_count.
    assert (r ∈ filter (λ r, reviewCreatedVersion r = Some v
                              ∧ sentiment_label r = Some l) view) as Hin.
    { by apply list_elem_of_filter. }
    destruct (filter _ view); [by apply elem_of_nil in Hin|]. simpl. lia.
Qed.

(** ** Facts about the script *)

Section Quiet.
Context (l : nat).

Lemma quiet_ret {A} (a : A) : quiet l (ret a).
Proof. intros w. split; [done|]. exists []. by rewrite app_nil_r. Qed.

Lemma quiet_raise {A} (exn : string) : quiet l (raise (A := A) exn).
Proof. intros w. split; [done|]. exists []. by rewrite app_nil_r. Qed.

Lemma quiet_emit (e : Event) : e ≠ subheader answer_heading → quiet l (emit e).
Proof. intros He w. split; [done|]. exists [e]. split; [done|]. by constructor. Qed.

Lemma quiet_read_frame (l' : nat) : quiet l (read_frame l').
Proof.
  intros w. unfold read_frame.
  destruct (heap w !! l'); (split; [done|]); exists []; by rewrite app_nil_r.
Qed.

Lemma quiet_write_frame (l' : nat) (f : Frame) : l' ≠ l → quiet l (write_frame l' f).
Proof.
  intros Hne w. split; [by apply list_lookup_insert_ne|].
  exists []. by rewrite app_nil_r.
Qed.

Lemma quiet_bind {A B} (m : Script A) (k : A → Script B) :
  quiet l m → (∀ a, quiet l (k a)) → quiet l (m ≫= k).
Proof.
  intros Hm Hk w. unfold mbind, script_bind, bind.
  destruct (Hm w) as (Hh & evs & Hp & Hevs).
  destruct (m w) as [[a| |exn] w']; simpl in *; [|by eauto..].
  destruct (Hk a w') as (Hh' & evs' & Hp' & Hevs').
  split; [congruence|]. exists (evs ++ evs')%list.
  rewrite Hp', Hp, app_assoc. split; [done|]. by apply Forall_app.
Qed.
End Quiet.

Ltac quiet_step :=
  first
    [ apply quiet_bind; [|intros ?]
    | apply quiet_emit; discriminate
    | apply quiet_read_frame
    | apply quiet_write_frame; done
    | apply quiet_ret
    | apply quiet_raise
    | case_match
    | case_decide ].

Section ChartsFacts.
Variable strptime : list (option string) → string → option Z.

Lemma quiet_charts (l filtered_df : nat) (selected_app : option (option string))
    (chart_choice : option string) :
  filtered_df ≠ l → quiet l (charts strptime filtered_df selected_app chart_choice).
Proof.
  intros Hne.
  unfold charts, render, convert_at, pie_chart, bar_chart, box_plot,
    line_chart, heatmap.
  repeat quiet_step.
Qed.
End ChartsFacts.

Lemma shown_answer_none (evs : list Event) :
  Forall (λ e, e ≠ subheader answer_heading) evs → shown_answer evs = None.
Proof.
  induction 1 as [|e evs He _ IH]; [done|]. simpl.
  destruct e as [| | | | |h| | | | |]; try done.
  destruct evs as [|[] ?]; try done.
  rewrite decide_False; [done|]. by intros ->.
Qed.

Lemma shown_answer_app (p evs : list Event) :
  Forall (λ e, e ≠ subheader answer_heading) evs →
  last p ≠ Some (subheader answer_heading) →
  shown_answer (p ++ evs) = shown_answer p.
Proof.
  intros Hevs. induction p as [|e p IH]; intros Hlast.
  - by apply shown_answer_none.
  - destruct p as [|e' p].
    + transitivity (@None string); [|by destruct e].
      apply (shown_answer_none (e :: evs)). constructor; [|done].
      intros ->. by apply Hlast.
    + specialize (IH Hlast). simpl in *.
      destruct e; try done. destruct e'; try done. by rewrite IH.
Qed.

Section RunFacts.
Variable strptime : list (option string) → string → option Z.

(** A run over an existing file, up to line 65: [df] is object 0, the
    sidebar has bound [filtered_df] to a frame of its own holding the
    filtered view, and the page shows the answer to the question. *)
Lemma run_prefix (env : Env) (records : list (Row (option string))) :
  file env = Some records →
  ∃ (filtered : nat) (w : World),
    run strptime env
    = charts strptime filtered (selected_app env (read_csv records))
        (chart_options !! pick_chart env) w
    ∧ filtered ≠ 0
    ∧ heap w !! 0 = Some (ObjectAt (read_csv records))
    ∧ heap w !! filtered
      = Some (ObjectAt (filtered_df (read_csv records)
                (mjoin (selected_app env (read_csv records)))
                (selected_version env (read_csv records))))
    ∧ shown_answer (page w) = answer (read_csv records) (question env)
    ∧ last (page w) ≠ Some (subheader answer_heading).
Proof.
  intros Hfile.
  unfold run, main, startup, dashboard, sidebar, qna, selectbox. rewrite Hfile.
  unfold filtered_df, by_version.
  generalize (read_csv records). intros df.
  unfold mbind, script_bind, bind, emit, new_frame, read_frame, ret.
  cbn -[charts answer app_names versions by_app version_mask shown_answer last].
  fold (selected_app env df). fold (selected_version env df).
  unfold answer.
  destruct (decide (question env = "")) as [Hq|Hq];
    [rewrite (decide_False (P := question env ≠ "")) by (by intros [])
    |rewrite (decide_True (P := question env ≠ "")) by done];
    destruct (contains "negative" (lower (question env))
              && contains "google pay" (lower (question env)));
    case_decide;
    cbn -[charts count app_names versions by_app version_mask shown_answer last];
    eexists _, _; (split; [reflexivity|]); split_and!; done.
Qed.

Lemma shown_answer_run (env : Env) :
  shown_answer (page (run strptime env).2)
  = records ← file env; answer (read_csv records) (question env).
Proof.
  destruct (file env) as [records|] eqn:Hfile; simpl.
  - destruct (run_prefix env records Hfile)
      as (filtered & w & -> & Hne & _ & _ & <- & Hlast).
    destruct (quiet_charts strptime 0 filtered
                (selected_app env (read_csv records))
                (chart_options !! pick_chart env) Hne w)
      as (_ & evs & -> & Hevs).
    by apply shown_answer_app.
  - unfold run, main, startup. by rewrite Hfile.
Qed.
End RunFacts.

(** ** Question answering *)

Lemma count_spec {T} (df : list (Row T)) :
  count df
  = length (filter (λ r, app_name r = Some "Google Pay"
                         ∧ sentiment_label r = Some "negative") df).
Proof.
  unfold count. f_equal. apply filter_ext_elem. intros r _.
  by rewrite andb_True, !eq_cell_Some.
Qed.

Lemma prefix_app (s t : string) : String.prefix s (s ++ t) = true.
Proof.
  induction s as [|c s IH]; simpl; [by destruct t|].
  by destruct (ascii_dec c c).
Qed.

Lemma contains_prefix (s t : string) :
  String.prefix s t = true → contains s t = true.
Proof. intros Hp. destruct t; cbn [contains]; by rewrite Hp. Qed.

Lemma contains_middle (pre s post : string) :
  contains s (pre ++ s ++ post) = true.
Proof.
  induction pre as [|c pre IH].
  - change (contains s (s ++ post) = true). apply contains_prefix, prefix_app.
  - change (String.prefix s (String c (pre ++ s ++ post))
            || contains s (pre ++ s ++ post) = true).
    rewrite IH. apply orb_true_r.
Qed.

(** C4.  The answer to "How many negative reviews for Google Pay?" is the
    sentence spelling out, in decimal, the number of rows of the table whose
    [app_name] is "Google Pay" and whose [sentiment_label] is "negative". *)
Theorem answer_google_pay_count {T} (df : list (Row T)) :
  let n := length (filter (λ r, app_name r = Some "Google Pay"
                                ∧ sentiment_label r = Some "negative") df) in
  ∃ text,
    answer df "How many negative reviews for Google Pay?" = Some text
    ∧ text = " **Google Pay has " ++ str n ++ " negative reviews**."
    ∧ contains (str n) text = true.
Proof.
  intros n. eexists. split_and!; [|reflexivity|apply contains_middle].
  unfold answer. rewrite decide_False by done.
  replace (contains "negative" (lower "How many negative reviews for Google Pay?")
           && contains "google pay" (lower "How many negative reviews for Google Pay?"))
    with true by (by vm_compute).
  by rewrite count_spec.
Qed.

(** C3, as the script has it.  The matcher knows one app, Google Pay,
    whatever apps the table holds: a non-empty question whose lower-cased
    text contains both "negative" and "google pay" is answered with the
    number of Google Pay rows labelled negative, any other non-empty
    question with the fixed message, and the empty question with nothing. *)
Theorem answer_single_intent {T} (df : list (Row T)) (question : string) :
  answer df "" = None
  ∧ (question ≠ "" →
     answer df question
     = Some (if contains "negative" (lower question)
                && contains "google pay" (lower question)
             then " **Google Pay has "
                  ++ str (length (filter (λ r, app_name r = Some "Google Pay"
                                 ∧ sentiment_label r = Some "negative") df))
                  ++ " negative reviews**."
             else not_recognized)).
Proof.
  split; [done|]. intros Hq. unfold answer. rewrite decide_False by done.
  rewrite count_spec. by destruct (_ && _).
Qed.

(** C3 fails as stated: PhonePe is an app of this table and the question
    names it together with "negative", yet the answer is the fixed message
    and not the count, 1, of its negative rows; and the empty question gets
    no message at all. *)
Lemma answer_not_for_every_app :
  Some "PhonePe" ∈ app_names phonepe_records
  ∧ contains "negative" (lower phonepe_question) = true
  ∧ contains (lower "PhonePe") (lower phonepe_question) = true
  ∧ length (filter (λ r, app_name r = Some "PhonePe"
                         ∧ sentiment_label r = Some "negative") phonepe_records) = 1
  ∧ answer phonepe_records phonepe_question = Some not_recognized
  ∧ answer phonepe_records "" ≠ Some not_recognized.
Proof. split_and!; [by left|by vm_compute..]. Qed.

(** ** Start-up and the source table *)

(** C8.  With the data file absent the run writes the page set-up and the
    error and is halted by [st.stop()]: no frame is loaded or filtered and
    no chart is drawn. *)
Theorem missing_file_halts (strptime : list (option string) → string → option Z)
    (env : Env) :
  file env = None →
  run strptime env
  = (Stopped,
     mkWorld []
       [set_page_config "Fintech Sentiment Dashboard" "wide";
        title " Smart Fintech Sentiment Explorer";
        markdown "Gain insights from app store reviews for major fintech platforms.";
        error "Data file not found. Please run sentiment analysis script first."]).
Proof. intros Hfile. unfold run, main, startup. by rewrite Hfile. Qed.

(** C9.  The object [df] is bound to holds, when the run ends (at the end
    of the script or on an exception), the table [load_data] returned:
    neither the filters nor the conversion of [filtered_df['at']] touch it. *)
Theorem source_table_unchanged (strptime : list (option string) → string → option Z)
    (env : Env) (records : list (Row (option string))) :
  file env = Some records →
  ∃ (df : nat) (loaded : World),
    startup env (mkWorld [] []) = (Done df, loaded)
    ∧ heap loaded !! df = Some (ObjectAt (read_csv records))
    ∧ heap (run strptime env).2 !! df = Some (ObjectAt (read_csv records)).
Proof.
  intros Hfile. eexists 0, _. split_and!.
  - unfold startup. rewrite Hfile. reflexivity.
  - done.
  - destruct (run_prefix strptime env records Hfile)
      as (filtered & w & -> & Hne & Hdf & _).
    destruct (quiet_charts strptime 0 filtered
                (selected_app env (read_csv records))
                (chart_options !! pick_chart env) Hne w) as [-> _].
    done.
Qed.

(** C10.  Two runs over the same file and with the same question show the
    same answer, whatever is picked in the select boxes. *)
Theorem answer_ignores_selection
    (strptime1 strptime2 : list (option string) → string → option Z)
    (env1 env2 : Env) :
  file env1 = file env2 → question env1 = question env2 →
  shown_answer (page (run strptime1 env1).2)
  = shown_answer (page (run strptime2 env2).2).
Proof. intros Hfile Hq. by rewrite !shown_answer_run, Hfile, Hq. Qed.

(** ** The theorems on the sample data *)

Lemma filter_by_app_partitions_sample :
  (∀ r, r ∈ read_csv sample_records → is_Some (app_name r))
  ∧ concat ((λ A, filtered_df (read_csv sample_records) A (Some "All"))
              <$> app_names (read_csv sample_records))
    ≡ₚ read_csv sample_records.
Proof.
  assert (∀ r, r ∈ read_csv sample_records → is_Some (app_name r)) as Hwf.
  { apply Forall_forall, (bool_decide_unpack _). by vm_compute. }
  split; [exact Hwf|].
  destruct (filter_by_app_partitions (read_csv sample_records))
    as (_ & _ & _ & Hunion).
  exact (Hunion Hwf).
Defined.

Lemma version_selection_sample :
  "1.2" ≠ "All"
  ∧ filtered_df (read_csv sample_records) (Some "Google Pay") (Some "1.2")
    = filter (λ r, reviewCreatedVersion r = Some "1.2")
        (by_app (read_csv sample_records) (Some "Google Pay")).
Proof.
  assert ("1.2" ≠ "All") as Hne by done.
  split; [exact Hne|].
  apply (proj2 (version_selection (read_csv sample_records) (Some "Google Pay"))
           "1.2" Hne).
Defined.

Lemma answer_single_intent_sample :
  "negative google pay" ≠ ""
  ∧ answer sample_records "negative google pay"
    = Some " **Google Pay has 1 negative reviews**.".
Proof.
  assert ("negative google pay" ≠ "") as Hne by done.
  split; [exact Hne|].
  apply (proj2 (answer_single_intent sample_records "negative google pay") Hne).
Defined.

Lemma heatmap_df_cells_sample :
  cell (heatmap_df (read_csv sample_records)) "1.0" "negative" = Some 0%Z
  ∧ cell (heatmap_df (read_csv sample_records)) "1.2" "negative"
    = Some (pair_count (read_csv sample_records) "1.2" "negative")
  ∧ (1 ≤ pair_count (read_csv sample_records) "1.2" "negative")%Z.
Proof.
  destruct (heatmap_df_cells (read_csv sample_records)) as (_ & Habsent & Hseen).
  split.
  - apply Habsent.
    + apply (bool_decide_unpack _). by vm_compute.
    + apply (bool_decide_unpack _). by vm_compute.
    + apply Forall_forall, (bool_decide_unpack _). by vm_compute.
  - apply (Hseen (mkRow 0 (Some "Google Pay") (Some "1.2") (Some "negative")
                    None (Some "86400000000001"))).
    + by left.
    + reflexivity.
    + reflexivity.
Defined.

Lemma sentiment_counts_total_sample :
  (∀ r, r ∈ filtered_df (read_csv sample_records) (Some "Google Pay") (Some "1.2") →
     is_Some (sentiment_label r))
  ∧ total (sentiment_df (filtered_df (read_csv sample_records)
                           (Some "Google Pay") (Some "1.2")))
    = 2%Z.
Proof.
  assert (∀ r, r ∈ filtered_df (read_csv sample_records)
                     (Some "Google Pay") (Some "1.2") →
               is_Some (sentiment_label r)) as Hwf.
  { apply Forall_forall, (bool_decide_unpack _). by vm_compute. }
  split; [exact Hwf|].
  apply (sentiment_counts_total (read_csv sample_records)
           (Some "Google Pay") (Some "1.2") Hwf).
Defined.

Lemma missing_file_halts_sample :
  file (mkEnv None 0 0 5 "How many negative reviews for Google Pay?") = None
  ∧ (run sample_strptime
       (mkEnv None 0 0 5 "How many negative reviews for Google Pay?")).1
    = Stopped.
Proof.
  split; [reflexivity|].
  by rewrite (missing_file_halts sample_strptime
                (mkEnv None 0 0 5 "How many negative reviews for Google Pay?")
                eq_refl).
Defined.

Lemma source_table_unchanged_sample :
  file (sample_env 0 2 5 "") = Some sample_records
  ∧ ∃ (df : nat) (loaded : World),
      startup (sample_env 0 2 5 "") (mkWorld [] []) = (Done df, loaded)
      ∧ heap loaded !! df = Some (ObjectAt (read_csv sample_records))
      ∧ heap (run sample_strptime (sample_env 0 2 5 "")).2 !! df
        = Some (ObjectAt (read_csv sample_records)).
Proof.
  split; [reflexivity|].
  apply (source_table_unchanged sample_strptime (sample_env 0 2 5 "")
           sample_records eq_refl).
Defined.

Lemma answer_ignores_selection_sample :
  file (sample_env 0 0 0 "negative Google Pay")
  = file (sample_env 1 2 5 "negative Google Pay")
  ∧ question (sample_env 0 0 0 "negative Google Pay")
    = question (sample_env 1 2 5 "negative Google Pay")
  ∧ shown_answer (page (run sample_strptime
                          (sample_env 0 0 0 "negative Google Pay")).2)
    = shown_answer (page (run sample_strptime
                            (sample_env 1 2 5 "negative Google Pay")).2).
Proof.
  split_and!; [reflexivity..|].
  apply (answer_ignores_selection sample_strptime sample_strptime
           (sample_env 0 0 0 "negative Google Pay")
           (sample_env 1 2 5 "negative Google Pay") eq_refl eq_refl).
Defined.

(** The conversion of line 73 does happen in place: in this run the object
    [filtered_df] is bound to ends with a timestamp column, next to the
    untouched table. *)
Example sample_run_converts_filtered :
  (λ d, match d with DatetimeAt rows => Some (at_ <$> rows) | _ => None end)
    <$> heap (run sample_strptime (sample_env 0 2 3 "")).2 !! 2
  = Some (Some [Some 86400000000001%Z; None])
  ∧ (λ d, match d with ObjectAt rows => Some (at_ <$> rows) | _ => None end)
      <$> heap (run sample_strptime (sample_env 0 2 3 "")).2 !! 0
    = Some (Some [Some "86400000000001"; Some "5"; Some "7"; None]).
Proof. by vm_compute. Qed.

(** * Further properties of the script *)

(** ** The version list of the sidebar (line 34) *)

Lemma StronglySorted_lt_key_NoDup `{Ord K} (l : list K) :
  StronglySorted lt_key l → NoDup l.
Proof.
  induction 1 as [|x l _ IH Hall]; constructor; [|done].
  intros Hx. eapply Forall_forall in Hall; [|done].
  unfold lt_key in Hall. by rewrite cmp_refl in Hall.
Qed.


Lemma elem_of_insort (s t : string) (l : list string) :
  t ∈ insort s l ↔ t = s ∨ t ∈ l.
Proof.
  induction l as [|u l IH]; simpl.
  - rewrite list_elem_of_singleton, elem_of_nil. tauto.
  - destruct (String.ltb s u); rewrite !elem_of_cons, ?IH; tauto.
Qed.


Lemma elem_of_sorted (l : list string) (t : string) : t ∈ sorted l ↔ t ∈ l.
Proof.
  unfold sorted. induction l as [|s l IH]; simpl; [done|].
  rewrite elem_of_insort, elem_of_cons, IH. tauto.
Qed.


Lemma elem_of_dropna {A} (col : list (option A)) (x : A) :
  x ∈ dropna col ↔ Some x ∈ col.
Proof.
  unfold dropna. rewrite list_elem_of_omap. split.
  - by intros ([y|] & Hy & [= ->]).
  - intros Hx. by exists (Some x).
Qed.

Lemma elem_of_versions {T} (view : list (Row T)) (v : string) :
  v ∈ versions view ↔ ∃ r, r ∈ view ∧ reviewCreatedVersion r = Some v.
Proof.
  unfold versions.
  rewrite elem_of_sorted, elem_of_unique, elem_of_dropna, list_elem_of_fmap.
  split; intros (r & ? & ?); eauto.
Qed.


(** ** What the select boxes offer (lines 28-37) *)

Lemma by_app_elem {T} (df : list (Row T)) (A : string) (r : Row T) :
  r ∈ by_app df (Some A) ↔ app_name r = Some A ∧ r ∈ df.
Proof. unfold by_app. by rewrite list_elem_of_filter, eq_cell_Some. Qed.

Lemma version_mask_elem {T} (view : list (Row T)) (v : string) (r : Row T) :
  r ∈ version_mask view (Some v) ↔ reviewCreatedVersion r = Some v ∧ r ∈ view.
Proof. unfold version_mask. by rewrite list_elem_of_filter, eq_cell_Some. Qed.

(** X2.  Whatever the user picks in the two select boxes, an app name and a
    version (or "All"), the filtered view has at least one row. *)
Theorem offered_selection_has_rows (env : Env)
    (df : list (Row (option string))) (A v : string) :
  selected_app env df = Some (Some A) →
  selected_version env df = Some v →
  filtered_df df (Some A) (Some v) ≠ [].
Proof.
  unfold selected_version, selected_app. intros HA Hv. rewrite HA in Hv.
  simpl in Hv.
  assert (∃ r, r ∈ by_app df (Some A)) as [r Hr].
  { apply list_elem_of_lookup_2, elem_of_app_names in HA as (r & Hr & HrA).
    exists r. by apply by_app_elem. }
  unfold filtered_df, by_version.
  destruct (decide (Some v ≠ Some "All")) as [Hne|_];
    [|intros Hnil; rewrite Hnil in Hr; by apply elem_of_nil in Hr].
  destruct (pick_version env) as [|i]; simpl in Hv; [congruence|].
  apply list_elem_of_lookup_2, elem_of_versions in Hv as (r' & Hr' & Hv).
  intros Hnil.
  assert (r' ∈ version_mask (by_app df (Some A)) (Some v)) as Hin.
  { by apply version_mask_elem. }
  rewrite Hnil in Hin. by apply elem_of_nil in Hin.
Qed.

(** ** Row identity under the filters (lines 24, 31, 37) *)

Lemma StronglySorted_sublist {A} (R : A → A → Prop) (l k : list A) :
  l `sublist_of` k → StronglySorted R k → StronglySorted R l.
Proof.
  induction 1 as [|x l k Hlk IH|x l k Hlk IH]; intros Hk; [done|..].
  - apply StronglySorted_inv in Hk as [Hk Hall].
    constructor; [by apply IH|]. apply Forall_forall. intros y Hy.
    eapply Forall_forall in Hall; [done|]. by eapply elem_of_sublist.
  - apply StronglySorted_inv in Hk as [Hk _]. by apply IH.
Qed.

Lemma seq_ascending (i n : nat) : StronglySorted lt (seq i n).
Proof.
  revert i. induction n as [|n IH]; intros i; simpl; constructor; [done|].
  apply Forall_forall. intros j Hj. apply elem_of_seq in Hj. lia.
Qed.

Lemma read_csv_index (records : list (Row (option string))) :
  index <$> read_csv records = seq 0 (length records).
Proof.
  unfold read_csv. rewrite fmap_imap.
  transitivity (imap (λ (j : nat) (_ : Row (option string)), j) records).
  - by apply imap_ext.
  - rewrite (imap_seq_0 records (λ j, j)). apply list_fmap_id.
Qed.

Lemma filtered_df_sublist {T} (df : list (Row T)) (a v : option string) :
  filtered_df df a v `sublist_of` df.
Proof.
  unfold filtered_df, by_version, version_mask, by_app. case_decide.
  - etrans; apply sublist_filter.
  - apply sublist_filter.
Qed.

(** X3.  [read_csv] labels the rows 0, 1, 2, ... and every filtered view
    keeps rows of the table in table order under their labels: the index of
    a view is strictly ascending, so a label names one row of it. *)
Theorem filtered_index_ascending (records : list (Row (option string)))
    (selected_app selected_version : option string) :
  index <$> read_csv records = seq 0 (length records)
  ∧ filtered_df (read_csv records) selected_app selected_version
    `sublist_of` read_csv records
  ∧ StronglySorted lt
      (index <$> filtered_df (read_csv records) selected_app selected_version).
Proof.
  split_and!; [apply read_csv_index|apply filtered_df_sublist|].
  eapply StronglySorted_sublist.
  - apply fmap_sublist, filtered_df_sublist.
  - rewrite read_csv_index. apply seq_ascending.
Qed.

(** ** How the filters compose (lines 31-37) *)

(** X4.  The two masks can be applied in either order, and filtering a
    filtered view again with the same selection changes nothing. *)
Theorem filters_commute_idempotent {T} (df : list (Row T))
    (selected_app selected_version : option string) :
  by_app (version_mask df selected_version) selected_app
  = version_mask (by_app df selected_app) selected_version
  ∧ filtered_df (filtered_df df selected_app selected_version)
      selected_app selected_version
    = filtered_df df selected_app selected_version.
Proof.
  split.
  - unfold by_app, version_mask. rewrite !list_filter_filter.
    apply filter_ext_elem. tauto.
  - unfold filtered_df, by_version. case_decide.
    + unfold by_app, version_mask. rewrite !list_filter_filter.
      apply filter_ext_elem. tauto.
    + unfold by_app. rewrite list_filter_filter.
      apply filter_ext_elem. tauto.
Qed.

(** ** Counted series (lines 70, 118) *)

Section SeriesFacts.
Context `{Ord K} `{EqDecision K}.
Implicit Types (k : K) (s : Series K).

Lemma cmp_Eq_iff k k' : cmp k k' = Eq ↔ k = k'.
Proof. split; [apply cmp_eq|intros ->; apply cmp_refl]. Qed.

Lemma series_get_elem k n s :
  NoDup s.*1 → (k, n) ∈ s ↔ series_get k s = Some n.
Proof.
  induction s as [|[k0 n0] s IH]; simpl; intros Hnd.
  - by rewrite elem_of_nil.
  - apply NoDup_cons in Hnd as [Hk0 Hnd]. rewrite elem_of_cons.
    destruct (cmp k k0) eqn:Hc.
    + apply cmp_eq in Hc as ->. split; [|intros [= ->]; by left].
      intros [[= ->]|Hin]; [done|]. destruct Hk0.
      apply list_elem_of_fmap. by exists (k0, n).
    + rewrite <-IH by done. split; [|by right].
      intros [[= -> ->]|?]; [by rewrite cmp_refl in Hc|done].
    + rewrite <-IH by done. split; [|by right].
      intros [[= -> ->]|?]; [by rewrite cmp_refl in Hc|done].
Qed.

Lemma series_get_tally k k' s :
  series_get k' (tally k s)
  = if decide (k' = k) then Some (default 0 (series_get k s) + 1)%Z
    else series_get k' s.
Proof.
  induction s as [|[k0 n0] s IH]; simpl.
  - destruct (decide (k' = k)) as [->|Hne]; [by rewrite cmp_refl|].
    by destruct (cmp k' k) eqn:Hc; [apply cmp_eq in Hc|..].
  - destruct (decide (k = k0)) as [->|Hk]; simpl.
    + destruct (decide (k' = k0)) as [->|Hne]; [by rewrite !cmp_refl|].
      by destruct (cmp k' k0) eqn:Hc; [apply cmp_eq in Hc|..].
    + rewrite IH. destruct (decide (k' = k)) as [->|Hne].
      * destruct (cmp k k0) eqn:Hc; [by apply cmp_eq in Hc|done..].
      * done.
Qed.

Lemma tally_keys k s :
  (tally k s).*1 = if decide (k ∈ s.*1) then s.*1 else (s.*1 ++ [k])%list.
Proof.
  induction s as [|[k0 n0] s IH]; cbn [tally].
  - by rewrite decide_False by apply not_elem_of_nil.
  - destruct (decide (k = k0)) as [->|Hk]; rewrite !fmap_cons; cbn [fst].
    + by rewrite decide_True by by left.
    + rewrite IH. destruct (decide (k ∈ s.*1)) as [Hin|Hin].
      * by rewrite decide_True by by right.
      * rewrite decide_False; [done|]. by intros [?|?]%elem_of_cons.
Qed.

Lemma tally_NoDup k s : NoDup s.*1 → NoDup (tally k s).*1.
Proof.
  intros Hnd. rewrite tally_keys. case_decide; [done|].
  apply NoDup_app. split_and!; [done| |apply NoDup_singleton].
  intros x Hx ->%list_elem_of_singleton. done.
Qed.

Lemma foldl_tally_NoDup (ks : list K) :
  NoDup (foldl (λ s k, tally k s) [] ks).*1.
Proof.
  induction ks as [|k ks IH] using rev_ind; [constructor|].
  rewrite foldl_snoc. by apply tally_NoDup.
Qed.

Lemma series_get_foldl_tally (ks : list K) k :
  series_get k (foldl (λ s k, tally k s) [] ks)
  = if decide (k ∈ ks)
    then Some (Z.of_nat (length (filter (λ x, x = k) ks)))
    else None.
Proof.
  induction ks as [|k0 ks IH] using rev_ind.
  - by rewrite decide_False by apply not_elem_of_nil.
  - rewrite foldl_snoc, series_get_tally, filter_app, length_app.
    destruct (decide (k = k0)) as [->|Hne].
    + rewrite IH, filter_cons_True by done.
      rewrite (decide_True (P := k0 ∈ (ks ++ [k0])%list))
        by (apply elem_of_app; right; by left).
      destruct (decide (k0 ∈ ks)) as [Hin|Hin]; simpl; f_equal; [lia|].
      rewrite filter_none; [done|]. by intros x Hx ->.
    + rewrite IH, filter_cons_False by done.
      destruct (decide (k ∈ ks)) as [Hin|Hin].
      * rewrite decide_True by (apply elem_of_app; by left).
        simpl. do 2 f_equal. lia.
      * rewrite decide_False; [done|].
        intros [?|?%list_elem_of_singleton]%elem_of_app; done.
Qed.

Lemma insert_desc_Permutation (e : K * Z) s : insert_desc e s ≡ₚ e :: s.
Proof.
  induction s as [|e0 s IH]; simpl; [done|].
  destruct (e0.2 <=? e.2)%Z; [done|]. rewrite IH. apply Permutation_swap.
Qed.

Lemma sort_desc_Permutation s : foldr insert_desc [] s ≡ₚ s.
Proof.
  induction s as [|e s IH]; simpl; [done|].
  by rewrite insert_desc_Permutation, IH.
Qed.

Lemma insert_desc_sorted (e : K * Z) s :
  StronglySorted (λ a b, (b.2 ≤ a.2)%Z) s →
  StronglySorted (λ a b, (b.2 ≤ a.2)%Z) (insert_desc e s).
Proof.
  induction s as [|e0 s IH]; simpl; intros Hs; [by repeat constructor|].
  apply StronglySorted_inv in Hs as [Hs Hall].
  destruct (e0.2 <=? e.2)%Z eqn:Hle.
  - apply Z.leb_le in Hle. constructor; [by constructor|].
    constructor; [done|]. eapply Forall_impl; [exact Hall|].
    intros b Hb. simpl in *. lia.
  - apply Z.leb_gt in Hle. constructor; [by apply IH|].
    apply Forall_forall. intros b Hb.
    rewrite insert_desc_Permutation in Hb.
    apply elem_of_cons in Hb as [->|Hb]; [lia|].
    by eapply Forall_forall in Hall.
Qed.

Lemma value_counts_sorted (col : list (option K)) :
  StronglySorted (λ a b, (b.2 ≤ a.2)%Z) (value_counts col).
Proof.
  unfold value_counts. generalize (foldl (λ s k, tally k s) [] (dropna col)).
  intros s. induction s as [|e s IH]; simpl; [constructor|].
  by apply insert_desc_sorted.
Qed.

Lemma value_counts_NoDup (col : list (option K)) : NoDup (value_counts col).*1.
Proof.
  unfold value_counts. rewrite sort_desc_Permutation. apply foldl_tally_NoDup.
Qed.

Lemma series_get_value_counts (col : list (option K)) k :
  series_get k (value_counts col)
  = if decide (k ∈ dropna col)
    then Some (Z.of_nat (length (filter (λ x, x = k) (dropna col))))
    else None.
Proof.
  rewrite <-series_get_foldl_tally. apply option_eq. intros n.
  rewrite <-!series_get_elem by (apply value_counts_NoDup || apply foldl_tally_NoDup).
  unfold value_counts. by rewrite sort_desc_Permutation.
Qed.

Lemma total_bump k s : total (bump k s) = (total s + 1)%Z.
Proof.
  unfold total. induction s as [|[k0 n0] s IH]; simpl; [done|].
  destruct (cmp k k0); csimpl; [lia..|]. rewrite IH. lia.
Qed.

Lemma total_groupby_size (keys : list (option K)) :
  total (groupby_size keys) = Z.of_nat (length (dropna keys)).
Proof.
  induction keys as [|[k|] keys IH]; [done| |done].
  change (total (bump k (groupby_size keys))
          = Z.of_nat (S (length (dropna keys)))).
  rewrite total_bump, IH. lia.
Qed.
End SeriesFacts.

Lemma filter_dropna_fmap {A B} `{EqDecision B} (f : A → option B) (l : list A)
    (b : B) :
  length (filter (λ x, x = b) (dropna (f <$> l)))
  = length (filter (λ a, f a = Some b) l).
Proof.
  unfold dropna. induction l as [|a l IH]; [done|]. csimpl.
  destruct (f a) as [b'|] eqn:Hfa; simpl.
  - destruct (decide (b' = b)) as [->|Hne].
    + rewrite !filter_cons_True by done. simpl. by rewrite IH.
    + rewrite !filter_cons_False by congruence. done.
  - rewrite filter_cons_False by congruence. done.
Qed.

Lemma filter_length_pos {A} (P : A → Prop) `{!∀ x, Decision (P x)} (l : list A) :
  0 < length (filter P l) ↔ ∃ x, x ∈ l ∧ P x.
Proof.
  split.
  - destruct (filter P l) as [|x k] eqn:Hf; simpl; [lia|]. intros _.
    assert (x ∈ filter P l) as Hx by (rewrite Hf; by left).
    apply list_elem_of_filter in Hx as [? ?]. eauto.
  - intros (x & Hx & HP).
    assert (x ∈ filter P l) as Hin by by apply list_elem_of_filter.
    destruct (filter P l); [by apply elem_of_nil in Hin|simpl; lia].
Qed.

(** X5.  [sentiment_counts] lists each label of the view once, with the
    number of rows carrying it (at least 1), the larger counts first. *)
Theorem sentiment_counts_spec {T} (view : list (Row T)) :
  StronglySorted (λ a b, (b.2 ≤ a.2)%Z) (sentiment_counts view)
  ∧ NoDup (sentiment_counts view).*1
  ∧ ∀ l n, (l, n) ∈ sentiment_counts view
      ↔ n = Z.of_nat (length (filter (λ r, sentiment_label r = Some l) view))
        ∧ (1 ≤ n)%Z.
Proof.
  unfold sentiment_counts.
  split_and!; [apply value_counts_sorted|apply value_counts_NoDup|].
  intros l n. rewrite series_get_elem by apply value_counts_NoDup.
  rewrite series_get_value_counts, filter_dropna_fmap.
  pose proof (filter_length_pos (λ r, sentiment_label r = Some l) view) as Hpos.
  case_decide as Hin.
  - apply elem_of_dropna, list_elem_of_fmap in Hin as (r & Hr & Hin).
    assert (0 < length (filter (λ r, sentiment_label r = Some l) view)).
    { apply Hpos. eauto. }
    split; [intros [= <-]; split; [done|lia] | by intros [-> _]].
  - split; [done|]. intros [-> Hn].
    destruct Hin. apply elem_of_dropna, list_elem_of_fmap.
    destruct (proj1 Hpos) as (r & Hr & Hl); [lia|]. eauto.
Qed.

(** ** Daily volume (lines 118-119) *)

Lemma dt_date_on_day (t : option Z) (d : Z) :
  (λ ns, ns `div` nanos_per_day)%Z <$> t = Some d ↔ on_day d t.
Proof.
  destruct t as [ns|]; simpl; [|by split].
  pose proof (Z.div_mod ns nanos_per_day) as Hdm.
  pose proof (Z.mod_pos_bound ns nanos_per_day) as Hm.
  unfold nanos_per_day in *. split.
  - intros [= <-]. lia.
  - intros Hd. f_equal. symmetry.
    apply Z.div_unique with (r := (ns - d * 86400000000000)%Z); lia.
Qed.

Lemma filter_fmap_length {A B} (P : B → Prop) `{!∀ y, Decision (P y)}
    (Q : A → Prop) `{!∀ x, Decision (Q x)} (f : A → B) (l : list A) :
  (∀ x, P (f x) ↔ Q x) →
  length (filter P (f <$> l)) = length (filter Q l).
Proof.
  intros HPQ. induction l as [|x l IH]; [done|]. csimpl.
  destruct (decide (Q x)) as [HQ|HQ].
  - rewrite !filter_cons_True by (done || by apply HPQ). simpl. by rewrite IH.
  - rewrite !filter_cons_False by (done || by rewrite HPQ). done.
Qed.

Lemma dropna_filter_length {A} (col : list (option A)) :
  length (dropna col) = length (filter is_Some col).
Proof.
  unfold dropna. induction col as [|[a|] col IH]; [done|..].
  - rewrite filter_cons_True by by eexists. csimpl. by rewrite IH.
  - rewrite filter_cons_False by by intros [? ?]. done.
Qed.

(** X6.  An entry of the daily volume is a day that has rows, with the
    number of rows whose timestamp lies within that day (midnight included,
    next midnight excluded, also before the epoch); the counts add up to the
    number of rows that have a timestamp. *)
Theorem daily_counts_entries (view : list (Row (option Z))) :
  (∀ d n, (d, n) ∈ daily_counts view
     ↔ n = Z.of_nat (length (filter (λ r, on_day d (at_ r)) view))
       ∧ (1 ≤ n)%Z)
  ∧ total (daily_counts view)
    = Z.of_nat (length (filter (λ r, is_Some (at_ r)) view)).
Proof.
  unfold daily_counts, dt_date. split.
  - intros d n.
    rewrite series_get_elem
      by apply StronglySorted_lt_key_NoDup, groupby_size_sorted.
    rewrite series_get_groupby_size, <-list_fmap_compose.
    rewrite (filter_fmap_length _ (λ r, on_day d (at_ r)))
      by (intros r; apply dt_date_on_day).
    pose proof (filter_length_pos (λ r, on_day d (at_ r)) view) as Hpos.
    case_decide as Hin.
    + apply list_elem_of_fmap in Hin as (r & Hd & Hr).
      assert (0 < length (filter (λ r, on_day d (at_ r)) view)).
      { apply Hpos. exists r. split; [done|]. by apply dt_date_on_day. }
      split; [intros [= <-]; split; [done|lia] | by intros [-> _]].
    + split; [done|]. intros [-> Hn]. destruct Hin.
      destruct (proj1 Hpos) as (r & Hr & Hd); [lia|].
      apply list_elem_of_fmap. exists r. split; [|done].
      symmetry. by apply dt_date_on_day.
  - rewrite total_groupby_size, dropna_filter_length, <-list_fmap_compose.
    f_equal. apply filter_fmap_length. intros r. simpl.
    by rewrite fmap_is_Some.
Qed.

(** ** The heatmap frame (line 130) *)


(** ** Timestamp conversion (line 73) *)


Lemma to_datetime_None (strptime : list (option string) → string → option Z)
    (col : list (option string)) :
  to_datetime strptime col = None ↔ ∃ s, Some s ∈ col ∧ strptime col s = None.
Proof.
  unfold to_datetime. rewrite mapM_None, Exists_exists. split.
  - intros ([s|] & Hin & Hc); [|done]. exists s. split; [done|].
    by destruct (strptime col s).
  - intros (s & Hin & Hs). exists (Some s). split; [done|]. by rewrite Hs.
Qed.


(** ** The question matcher (lines 59-65) *)

Lemma lower_ascii_idemp (c : ascii) : lower_ascii (lower_ascii c) = lower_ascii c.
Proof. by destruct c as [[] [] [] [] [] [] [] []]. Qed.

Lemma lower_idemp (s : string) : lower (lower s) = lower s.
Proof.
  induction s as [|c s IH]; simpl; [done|]. by rewrite lower_ascii_idemp, IH.
Qed.

Lemma lower_empty (s : string) : lower s = "" ↔ s = "".
Proof. destruct s; simpl; split; done. Qed.

Lemma answer_lower {T} (df : list (Row T)) (q1 q2 : string) :
  lower q1 = lower q2 → answer df q1 = answer df q2.
Proof.
  intros Hq. unfold answer. rewrite Hq.
  destruct (decide (q1 = "")) as [H1|H1], (decide (q2 = "")) as [H2|H2];
    try done.
  - apply (proj2 (lower_empty _)) in H1. rewrite Hq in H1.
    by apply (proj1 (lower_empty _)) in H1.
  - apply (proj2 (lower_empty _)) in H2. rewrite <-Hq in H2.
    by apply (proj1 (lower_empty _)) in H2.
Qed.

(** X9.  The matcher ignores the case of ASCII letters: two questions that
    differ only in letter case get the same answer, and so does a question
    and its lower-cased text. *)
Theorem answer_case_insensitive {T} (df : list (Row T)) :
  (∀ q, answer df (lower q) = answer df q)
  ∧ (∀ q1 q2, lower q1 = lower q2 → answer df q1 = answer df q2).
Proof.
  split; [|apply answer_lower]. intros q. apply answer_lower, lower_idemp.
Qed.

(** X10.  The number in the answer is the one the charts show: it is the
    count [sentiment_counts] gives the label "negative" in the view of
    Google Pay with all versions, and 0 when that view has no such label. *)
Theorem answer_count_matches_sentiment_counts {T} (df : list (Row T)) :
  Z.of_nat (count df)
  = default 0%Z
      (series_get "negative"
         (sentiment_counts (filtered_df df (Some "Google Pay") (Some "All")))).
Proof.
  unfold filtered_df, sentiment_counts.
  rewrite by_version_All, series_get_value_counts, filter_dropna_fmap.
  rewrite by_app_Some, list_filter_filter, count_spec.
  assert (filter (λ r, sentiment_label r = Some "negative"
                       ∧ app_name r = Some "Google Pay") df
          = filter (λ r, app_name r = Some "Google Pay"
                         ∧ sentiment_label r = Some "negative") df) as ->.
  { apply filter_ext_elem. tauto. }
  case_decide as Hin; [done|]. simpl.
  rewrite filter_none; [done|]. intros r Hr [Happ Hlabel]. destruct Hin.
  apply elem_of_dropna, list_elem_of_fmap. exists r. split; [done|].
  apply list_elem_of_filter. done.
Qed.

(** ** Runs (lines 10-214) *)

Section RunOutcome.
Variable strptime : list (option string) → string → option Z.

(** A run over an existing file, up to line 65: nothing is drawn yet and
    [filtered_df] is bound to a frame holding the selected view. *)
Lemma run_prefix_page (env : Env) (records : list (Row (option string))) :
  file env = Some records →
  ∃ (filtered : nat) (w : World),
    run strptime env
    = charts strptime filtered (selected_app env (read_csv records))
        (chart_options !! pick_chart env) w
    ∧ filtered ≠ 0
    ∧ heap w !! filtered
      = Some (ObjectAt (selected_view env (read_csv records)))
    ∧ figures (page w) = []
    ∧ Forall (λ e, ∀ body, e ≠ header body) (page w).
Proof.
  intros Hfile.
  unfold run, main, startup, dashboard, sidebar, qna, selectbox. rewrite Hfile.
  unfold selected_view, filtered_df, by_version.
  generalize (read_csv records). intros df.
  unfold mbind, script_bind, bind, emit, new_frame, read_frame, ret.
  cbn -[charts count app_names versions by_app version_mask figures].
  fold (selected_app env df). fold (selected_version env df).
  destruct (decide (question env ≠ "")) as [Hq|Hq];
    [destruct (contains "negative" (lower (question env))
               && contains "google pay" (lower (question env)))|];
    case_decide;
    cbn -[charts count app_names versions by_app version_mask figures];
    eexists _, _; (split; [reflexivity|]); split_and!; try done;
    repeat constructor; done.
Qed.

Lemma charts_raises (filtered : nat) (w : World)
    (view : list (Row (option string)))
    (selected_app : option (option string)) (chart_choice : option string) :
  heap w !! filtered = Some (ObjectAt view) →
  to_datetime strptime (at_ <$> view) = None →
  charts strptime filtered selected_app chart_choice w = (Raised "ValueError", w).
Proof.
  intros Hview Hts.
  unfold charts, convert_at, mbind, script_bind, bind, read_frame.
  rewrite Hview. cbn [heap]. rewrite Hview, Hts. done.
Qed.

Lemma charts_completes (filtered : nat) (w : World)
    (view : list (Row (option string))) (ts : list (option Z))
    (selected_app : option (option string)) (pick : nat) :
  heap w !! filtered = Some (ObjectAt view) →
  to_datetime strptime (at_ <$> view) = Some ts →
  ∃ evs,
    charts strptime filtered selected_app (chart_options !! pick) w
    = (Done (),
       mkWorld (<[filtered := DatetimeAt (with_timestamps view ts)]> (heap w))
         (page w ++ evs))
    ∧ last evs = Some (markdown footer_html)
    ∧ length (figures evs) = charts_asked pick.
Proof.
  intros Hview Hts.
  assert (<[filtered := DatetimeAt (with_timestamps view ts)]> (heap w) !! filtered
          = Some (DatetimeAt (with_timestamps view ts))) as Hconv.
  { apply list_lookup_insert_eq. by eapply lookup_lt_Some. }
  unfold charts, convert_at, render, pie_chart, bar_chart, box_plot,
    line_chart, heatmap, mbind, script_bind, bind, read_frame, write_frame,
    emit, ret.
  rewrite Hview. cbn [heap page]. rewrite Hview, Hts.
  fold (with_timestamps view ts).
  destruct pick as [|[|[|[|[|[|pick]]]]]];
    cbn [chart_options lookup list_lookup];
    repeat (first [rewrite decide_True by done | rewrite decide_False by done]);
    cbn -[with_timestamps figures last footer_html daily_counts heatmap_df
          sentiment_df str_selected];
    repeat (rewrite Hconv;
            cbn -[with_timestamps figures last footer_html daily_counts
                  heatmap_df sentiment_df str_selected]);
    rewrite <-?app_assoc;
    (eexists; split; [reflexivity|]); split; reflexivity.
Qed.

Lemma figures_app (p q : list Event) :
  figures (p ++ q) = (figures p ++ figures q)%list.
Proof. apply omap_app. Qed.

(** X11.  Over an existing file whose selected view has readable
    timestamps, the run reaches the end of the script: the footer is the
    last thing on the page, and one chart is drawn for each of the five
    single choices, five for "All Visualizations". *)
Theorem run_completes (env : Env) (records : list (Row (option string)))
    (ts : list (option Z)) :
  file env = Some records →
  to_datetime strptime (at_ <$> selected_view env (read_csv records)) = Some ts →
  (run strptime env).1 = Done ()
  ∧ last (page (run strptime env).2) = Some (markdown footer_html)
  ∧ length (figures (page (run strptime env).2)) = charts_asked (pick_chart env).
Proof.
  intros Hfile Hts.
  destruct (run_prefix_page env records Hfile)
    as (filtered & w & -> & _ & Hview & Hfig & _).
  destruct (charts_completes filtered w _ ts
              (selected_app env (read_csv records)) (pick_chart env) Hview Hts)
    as (evs & -> & Hlast & Hn).
  cbn [fst snd page]. split_and!; [done| |].
  - by rewrite last_app, Hlast.
  - by rewrite figures_app, Hfig.
Qed.

(** X12.  When one timestamp of the selected view cannot be read, the run
    is ended by the [ValueError] of line 73: the answer to the question is
    on the page, but neither the header nor any chart. *)
Theorem run_raises_on_unreadable_timestamp (env : Env)
    (records : list (Row (option string))) (s : string) :
  file env = Some records →
  Some s ∈ at_ <$> selected_view env (read_csv records) →
  strptime (at_ <$> selected_view env (read_csv records)) s = None →
  (run strptime env).1 = Raised "ValueError"
  ∧ figures (page (run strptime env).2) = []
  ∧ Forall (λ e, ∀ body, e ≠ header body) (page (run strptime env).2)
  ∧ shown_answer (page (run strptime env).2)
    = answer (read_csv records) (question env).
Proof.
  intros Hfile Hin Hs.
  pose proof (shown_answer_run strptime env) as Hanswer.
  rewrite Hfile in Hanswer. simpl in Hanswer. rewrite Hanswer. clear Hanswer.
  destruct (run_prefix_page env records Hfile)
    as (filtered & w & -> & _ & Hview & Hfig & Hhead).
  erewrite charts_raises; [done|exact Hview|].
  apply to_datetime_None. eauto.
Qed.


End RunOutcome.

(** ** What the charts carry (lines 81-201) *)

Lemma bump_pos `{Ord K} (k : K) (s : Series K) :
  Forall (λ e, (1 ≤ e.2)%Z) s → Forall (λ e, (1 ≤ e.2)%Z) (bump k s).
Proof.
  induction 1 as [|[k0 n] s Hn Hs IH]; simpl; [by repeat constructor|].
  destruct (cmp k k0); repeat constructor; simpl in *; (done || lia).
Qed.

Lemma groupby_size_pos `{Ord K} (keys : list (option K)) :
  Forall (λ e, (1 ≤ e.2)%Z) (groupby_size keys).
Proof.
  induction keys as [|[k|] keys IH]; simpl; [constructor| |done].
  by apply bump_pos.
Qed.

Lemma tally_pos `{EqDecision K} (k : K) (s : Series K) :
  Forall (λ e, (1 ≤ e.2)%Z) s → Forall (λ e, (1 ≤ e.2)%Z) (tally k s).
Proof.
  induction 1 as [|[k0 n] s Hn Hs IH]; simpl; [by repeat constructor|].
  destruct (decide (k = k0)); repeat constructor; simpl in *; (done || lia).
Qed.

Lemma value_counts_pos `{EqDecision K} (col : list (option K)) :
  Forall (λ e, (1 ≤ e.2)%Z) (value_counts col).
Proof.
  unfold value_counts.
  assert (Forall (λ e : K * Z, (1 ≤ e.2)%Z)
            (foldl (λ s k, tally k s) [] (dropna col))) as Hpos.
  { induction (dropna col) as [|k ks IH] using rev_ind; [constructor|].
    rewrite foldl_snoc. by apply tally_pos. }
  apply Forall_forall. intros e He. rewrite sort_desc_Permutation in He.
  by eapply Forall_forall in Hpos.
Qed.

Lemma sentiment_df_sound {T} (view : list (Row T)) :
  StronglySorted (λ a b, (b.2 ≤ a.2)%Z) (sentiment_df view)
  ∧ NoDup (sentiment_df view).*1
  ∧ Forall (λ e, (1 ≤ e.2)%Z) (sentiment_df view).
Proof.
  unfold sentiment_df, sentiment_counts. split_and!.
  - apply (value_counts_sorted (K := string)).
  - apply (value_counts_NoDup (K := string)).
  - apply value_counts_pos.
Qed.

Lemma daily_counts_sound (view : list (Row (option Z))) :
  StronglySorted Z.lt (daily_counts view).*1
  ∧ Forall (λ e, (1 ≤ e.2)%Z) (daily_counts view).
Proof.
  split; [|apply groupby_size_pos].
  exact (groupby_size_sorted (dt_date (at_ <$> view))).
Qed.

Lemma heatmap_df_sound {T} (view : list (Row T)) :
  length (mat_values (heatmap_df view)) = length (mat_index (heatmap_df view))
  ∧ Forall (λ row, length row = length (mat_columns (heatmap_df view))
                   ∧ Forall (λ c, (0 ≤ c)%Z) row)
      (mat_values (heatmap_df view)).
Proof.
  split.
  - rewrite heatmap_df_tabulate at 1. simpl. by rewrite length_fmap.
  - rewrite heatmap_df_tabulate at 1. simpl.
    apply Forall_fmap, Forall_forall. intros v _. simpl.
    split; [by rewrite length_fmap|].
    apply Forall_fmap, Forall_forall. intros l _. simpl. unfold pair_count. lia.
Qed.

Section Paints.
Context (P : Figure → Prop).

Lemma paints_ret {A} (a : A) : paints P (ret a).
Proof. by intros w. Qed.

Lemma paints_raise {A} (exn : string) : paints P (raise (A := A) exn).
Proof. by intros w. Qed.

Lemma paints_st_stop {A} : paints P (st_stop (A := A)).
Proof. by intros w. Qed.

Lemma paints_read_frame (l : nat) : paints P (read_frame l).
Proof. intros w. unfold read_frame. by destruct (heap w !! l). Qed.

Lemma paints_write_frame (l : nat) (f : Frame) : paints P (write_frame l f).
Proof. by intros w. Qed.

Lemma paints_new_frame (f : Frame) : paints P (new_frame f).
Proof. by intros w. Qed.

Lemma paints_emit (e : Event) :
  (∀ fig, e = plotly_chart fig → P fig) → paints P (emit e).
Proof.
  intros He w Hw. simpl. rewrite figures_app. apply Forall_app. split; [done|].
  destruct e; simpl; try constructor; [by apply He|constructor].
Qed.

Lemma paints_bind {A B} (m : Script A) (k : A → Script B) :
  paints P m → (∀ a, paints P (k a)) → paints P (m ≫= k).
Proof.
  intros Hm Hk w Hw. unfold mbind, script_bind, bind.
  specialize (Hm w Hw). destruct (m w) as [[a| |exn] w']; simpl in *; [|done..].
  by apply Hk.
Qed.
End Paints.

Ltac paints_step :=
  first
    [ apply paints_bind; [|intros ?]
    | apply paints_emit; intros ? [= <-]
    | apply paints_emit; discriminate
    | apply paints_read_frame
    | apply paints_write_frame
    | apply paints_new_frame
    | apply paints_ret
    | apply paints_raise
    | apply paints_st_stop
    | case_match
    | case_decide ].

(** X14.  Whatever the file, the selections and the question, every chart
    a run draws carries one of the aggregates in good order: pie and bar
    charts distinct labels with positive counts, larger first; line charts
    positive counts by strictly ascending date; heatmaps a rectangle of
    non-negative cells matching their axes. *)
Theorem run_draws_sound_figures
    (strptime : list (option string) → string → option Z) (env : Env) :
  Forall sound_figure (figures (page (run strptime env).2)).
Proof.
  assert (paints sound_figure (main strptime env)) as Hmain.
  { unfold main, startup, dashboard, sidebar, qna, charts, render, convert_at,
      selectbox, pie_chart, bar_chart, box_plot, line_chart, heatmap.
    repeat paints_step; simpl; try done.
    all: try apply daily_counts_sound.
    all: match goal with
         | |- context [on_rows _ ?d] =>
             destruct d; first [apply sentiment_df_sound|apply heatmap_df_sound]
         end. }
  apply (Hmain (mkWorld [] [])). constructor.
Qed.

(** ** The further properties on the sample data *)

Lemma offered_selection_has_rows_sample :
  selected_app (sample_env 0 2 0 "") (read_csv sample_records)
  = Some (Some "Google Pay")
  ∧ selected_version (sample_env 0 2 0 "") (read_csv sample_records)
    = Some "1.2"
  ∧ filtered_df (read_csv sample_records) (Some "Google Pay") (Some "1.2") ≠ [].
Proof.
  assert (selected_app (sample_env 0 2 0 "") (read_csv sample_records)
          = Some (Some "Google Pay")) as Happ by (vm_compute; reflexivity).
  assert (selected_version (sample_env 0 2 0 "") (read_csv sample_records)
          = Some "1.2") as Hversion by (vm_compute; reflexivity).
  split_and!; [exact Happ|exact Hversion|].
  apply (offered_selection_has_rows (sample_env 0 2 0 "")
           (read_csv sample_records) "Google Pay" "1.2" Happ Hversion).
Defined.

Lemma answer_case_insensitive_sample :
  lower "NEGATIVE Google PAY" = lower "negative google pay"
  ∧ answer sample_records "NEGATIVE Google PAY"
    = answer sample_records "negative google pay".
Proof.
  assert (lower "NEGATIVE Google PAY" = lower "negative google pay") as Hq
    by (vm_compute; reflexivity).
  split; [exact Hq|].
  apply (proj2 (answer_case_insensitive sample_records) _ _ Hq).
Defined.

Lemma run_completes_sample :
  file (sample_env 0 2 5 "") = Some sample_records
  ∧ to_datetime sample_strptime
      (at_ <$> selected_view (sample_env 0 2 5 "") (read_csv sample_records))
    = Some [Some 86400000000001%Z; None]
  ∧ (run sample_strptime (sample_env 0 2 5 "")).1 = Done ()
  ∧ last (page (run sample_strptime (sample_env 0 2 5 "")).2)
    = Some (markdown footer_html)
  ∧ length (figures (page (run sample_strptime (sample_env 0 2 5 "")).2))
    = charts_asked 5.
Proof.
  assert (to_datetime sample_strptime
            (at_ <$> selected_view (sample_env 0 2 5 "") (read_csv sample_records))
          = Some [Some 86400000000001%Z; None]) as Hts
    by (vm_compute; reflexivity).
  split_and!; [reflexivity|exact Hts|..];
    apply (run_completes sample_strptime (sample_env 0 2 5 "") sample_records
             [Some 86400000000001%Z; None] eq_refl Hts).
Defined.

Lemma run_raises_on_unreadable_timestamp_sample :
  Some "yesterday"
    ∈ at_ <$> selected_view (mkEnv (Some unreadable_records) 0 0 0 "negative google pay")
                (read_csv unreadable_records)
  ∧ (run sample_strptime
       (mkEnv (Some unreadable_records) 0 0 0 "negative google pay")).1
    = Raised "ValueError"
  ∧ shown_answer (page (run sample_strptime
       (mkEnv (Some unreadable_records) 0 0 0 "negative google pay")).2)
    = answer (read_csv unreadable_records) "negative google pay".
Proof.
  assert (Some "yesterday"
            ∈ at_ <$> selected_view
                        (mkEnv (Some unreadable_records) 0 0 0 "negative google pay")
                        (read_csv unreadable_records)) as Hin.
  { apply (bool_decide_unpack _). by vm_compute. }
  split; [exact Hin|].
  destruct (run_raises_on_unreadable_timestamp sample_strptime
              (mkEnv (Some unreadable_records) 0 0 0 "negative google pay")
              unreadable_records "yesterday" eq_refl Hin eq_refl)
    as (Hout & _ & _ & Hanswer).
  split; [exact Hout|exact Hanswer].
Defined.


(** ** Missing cells (lines 28-31, 70) *)

Lemma by_app_nan {T} (df : list (Row T)) : by_app df None = [].
Proof. unfold by_app. apply filter_none. intros r _. apply eq_cell_None. Qed.

(** X15.  A row without app name puts a [nan] entry in the app select box,
    and picking that entry selects no row at all, not even the rows without
    app name: the view is empty and "All" is the only version offered. *)
Theorem missing_app_selects_nothing {T} (df : list (Row T))
    (selected_version : option string) :
  (None ∈ app_names df ↔ ∃ r, r ∈ df ∧ app_name r = None)
  ∧ filtered_df df None selected_version = []
  ∧ versions (by_app df None) = [].
Proof.
  split_and!.
  - apply elem_of_app_names.
  - unfold filtered_df. rewrite by_app_nan. unfold by_version, version_mask.
    by case_decide.
  - by rewrite by_app_nan.
Qed.

(** X16.  Rows without a sentiment label are left out of the counts: the
    counts of [sentiment_counts] add up to the number of rows of the view
    that have a label. *)
Theorem sentiment_counts_total_labelled {T} (view : list (Row T)) :
  total (sentiment_counts view)
  = Z.of_nat (length (filter (λ r, is_Some (sentiment_label r)) view)).
Proof.
  unfold sentiment_counts.
  rewrite total_value_counts, dropna_filter_length. f_equal.
  by apply filter_fmap_length.
Qed.
